(** * Trivia API: the Flask request handlers of [backend/flaskr/__init__.py]

    A shallow embedding of the handlers, of the Python operations they
    apply to the decoded JSON body, and of the storage operations they call,
    followed by the properties of the handlers.

    Conventions.
    - A decoded JSON value is a [json]; Python's [None] is [JNull].  JSON
      numbers with a fraction or an exponent (Python floats) are not part
      of the model.  Strings are sequences of ASCII characters.
    - A Python exception is a [Raise]; [abort(code)] raises the HTTP
      exception of that code.  The application turns an HTTP exception into
      the JSON envelope of its registered error handler and every other
      exception into the envelope of status 500 ([respond]).
    - [random.choice] draws from an explicit random source: a handler that
      calls it takes the draw as an argument.
    - What depends on the database is a parameter: whether backslash
      escapes in a LIKE pattern, whether the driver refuses a NUL
      character, and which values the columns of a question take. *)

From Stdlib Require Import ZArith List String Ascii Bool Lia DecimalString.
From Stdlib Require Import DecimalPos DecimalZ Permutation.
Import ListNotations.

Local Open Scope string_scope.
Local Open Scope Z_scope.

(** ** Python values and the built-in operations the handlers use *)

Module Py.

#[warnings="-register-all"]
Inductive json : Type :=
| JNull
| JBool (b : bool)
| JInt (n : Z)
| JStr (s : string)
| JArr (items : list json)
| JObj (fields : list (string * json)).

Inductive exn : Type :=
| HTTPException (code : Z)
| TypeError
| ValueError
| KeyError
| IndexError
| AttributeError
| ArgumentError
| DataError
| ProgrammingError
| IntegrityError.

Inductive result (A : Type) : Type :=
| Ok (a : A)
| Raise (e : exn).

Arguments Ok {A} a.
Arguments Raise {A} e.

Definition bind {A B : Type} (m : result A) (k : A -> result B) : result B :=
  match m with
  | Ok a => k a
  | Raise e => Raise e
  end.

(** [abort(code)] of Flask. *)
Definition abort {A : Type} (code : Z) : result A := Raise (HTTPException code).

(** Truth value of an object, as tested by [not body]. *)
Definition truthy (v : json) : bool :=
  match v with
  | JNull => false
  | JBool b => b
  | JInt n => negb (n =? 0)
  | JStr s => negb (String.eqb s "")
  | JArr items => match items with [] => false | _ :: _ => true end
  | JObj fields => match fields with [] => false | _ :: _ => true end
  end.

(** *** Strings *)

Fixpoint startswith (prefix s : string) : bool :=
  match prefix, s with
  | EmptyString, _ => true
  | String _ _, EmptyString => false
  | String c p', String d s' => Ascii.eqb c d && startswith p' s'
  end.

(** [needle in hay] for two strings. *)
Fixpoint str_contains (needle hay : string) : bool :=
  startswith needle hay ||
  match hay with
  | EmptyString => false
  | String _ hay' => str_contains needle hay'
  end.

(** ASCII lower-casing, [lower()] of the database on ASCII text. *)
Definition lower_char (c : ascii) : ascii :=
  let n := nat_of_ascii c in
  if (65 <=? n)%nat && (n <=? 90)%nat then ascii_of_nat (n + 32) else c.

Fixpoint lower (s : string) : string :=
  match s with
  | EmptyString => EmptyString
  | String c s' => String (lower_char c) (lower s')
  end.

Fixpoint str_mem (c : ascii) (s : string) : bool :=
  match s with
  | EmptyString => false
  | String d s' => Ascii.eqb c d || str_mem c s'
  end.

(** *** Objects: lookup of a key in a dict, first binding *)

Fixpoint lookup (key : string) (fields : list (string * json)) : option json :=
  match fields with
  | [] => None
  | (k, v) :: rest => if String.eqb key k then Some v else lookup key rest
  end.

Definition has_key (key : string) (fields : list (string * json)) : bool :=
  match lookup key fields with
  | Some _ => true
  | None => false
  end.

(** [d[key] = v] on a dict: replaces the value of an existing key at its
    place, appends a new key. *)
Fixpoint dict_set (key : string) (v : json) (fields : list (string * json))
  : list (string * json) :=
  match fields with
  | [] => [(key, v)]
  | (k, w) :: rest =>
      if String.eqb key k then (k, v) :: rest else (k, w) :: dict_set key v rest
  end.

(** ['key' in container]: key test on a dict, element test on a list,
    substring test on a string, TypeError on the other values. *)
Definition is_str (key : string) (v : json) : bool :=
  match v with
  | JStr s => String.eqb key s
  | _ => false
  end.

Definition contains (container : json) (key : string) : result bool :=
  match container with
  | JObj fields => Ok (has_key key fields)
  | JArr items => Ok (existsb (is_str key) items)
  | JStr s => Ok (str_contains key s)
  | JNull | JBool _ | JInt _ => Raise TypeError
  end.

(** The value of a key of an object, for reading a response. *)
Definition get (v : json) (key : string) : option json :=
  match v with
  | JObj fields => lookup key fields
  | _ => None
  end.

(** [container['key']]: KeyError on a dict without the key, TypeError on
    every value that is not a dict (a list and a string take integer
    indices, the others take none). *)
Definition getitem (container : json) (key : string) : result json :=
  match container with
  | JObj fields =>
      match lookup key fields with
      | Some v => Ok v
      | None => Raise KeyError
      end
  | _ => Raise TypeError
  end.

(** *** [int(...)] *)

(** The white space that [int] skips around the digits of an ASCII string:
    tab, line feed, vertical tab, form feed, carriage return and space. *)
Definition is_space (c : ascii) : bool :=
  let n := nat_of_ascii c in
  ((9 <=? n)%nat && (n <=? 13)%nat) || (n =? 32)%nat.

Definition is_digit (c : ascii) : bool :=
  let n := nat_of_ascii c in (48 <=? n)%nat && (n <=? 57)%nat.

Definition digit_value (c : ascii) : Z := Z.of_nat (nat_of_ascii c) - 48.

Definition underscore : ascii := "_"%char.

Fixpoint lstrip (s : string) : string :=
  match s with
  | EmptyString => EmptyString
  | String c s' => if is_space c then lstrip s' else s
  end.

Fixpoint all_space (s : string) : bool :=
  match s with
  | EmptyString => true
  | String c s' => is_space c && all_space s'
  end.

(** The interpreter's default limit on the number of digits of a decimal
    literal converted by [int] ([sys.int_info.default_max_str_digits]). *)
Definition int_max_str_digits : nat := 4300.

(** Scan of the digits: groups of digits separated by single underscores.
    [prev_us] tells that the previous character was an underscore;
    the result is the value, the number of digits and the unread rest. *)
Fixpoint scan_digits (s : string) (prev_us : bool) (acc : Z) (digits : nat)
  : option (Z * nat * string) :=
  match s with
  | EmptyString => if prev_us then None else Some (acc, digits, s)
  | String c s' =>
      if is_digit c then scan_digits s' false (10 * acc + digit_value c) (S digits)
      else if Ascii.eqb c underscore then
        if prev_us then None else scan_digits s' true acc digits
      else if prev_us then None else Some (acc, digits, s)
  end.

Definition parse_unsigned (s : string) : option Z :=
  match s with
  | EmptyString => None
  | String c _ =>
      if Ascii.eqb c underscore then None
      else
        match scan_digits s false 0 0 with
        | Some (n, digits, rest) =>
            if (digits =? 0)%nat then None
            else if (int_max_str_digits <? digits)%nat then None
            else if all_space rest then Some n
            else None
        | None => None
        end
  end.

(** [int(s)] for a string, base ten: surrounding white space, one
    optional sign, digits.  [None] stands for ValueError. *)
Definition int_of_str (s : string) : option Z :=
  match lstrip s with
  | String "+" s' => parse_unsigned s'
  | String "-" s' => option_map Z.opp (parse_unsigned s')
  | s' => parse_unsigned s'
  end.

Definition int (v : json) : result Z :=
  match v with
  | JInt n => Ok n
  | JBool b => Ok (if b then 1 else 0)
  | JStr s =>
      match int_of_str s with
      | Some n => Ok n
      | None => Raise ValueError
      end
  | JNull | JArr _ | JObj _ => Raise TypeError
  end.

(** *** [str(...)] and the [{...}] of an f-string *)

(** [str(n)] of an integer: its decimal string. *)
Definition str_of_int (n : Z) : string := NilZero.string_of_int (Z.to_int n).

Definition quote1 : ascii := "'"%char.
Definition quote2 : ascii := "034"%char.
Definition backslash : ascii := "\"%char.

Definition hex_digit (n : nat) : ascii :=
  if (n <? 10)%nat then ascii_of_nat (48 + n) else ascii_of_nat (87 + n).

Definition repr_char (quote c : ascii) : string :=
  let n := nat_of_ascii c in
  if Ascii.eqb c quote || Ascii.eqb c backslash then String backslash (String c "")
  else if (n =? 9)%nat then String backslash "t"
  else if (n =? 10)%nat then String backslash "n"
  else if (n =? 13)%nat then String backslash "r"
  else if (n <? 32)%nat || (n =? 127)%nat then
    String backslash (String "x" (String (hex_digit (n / 16)) (String (hex_digit (n mod 16)) "")))
  else String c "".

Fixpoint repr_chars (quote : ascii) (s : string) : string :=
  match s with
  | EmptyString => EmptyString
  | String c s' => repr_char quote c ++ repr_chars quote s'
  end.

(** [repr(s)] of a string: single quotes, unless the string holds a single
    quote and no double quote. *)
Definition repr_str (s : string) : string :=
  let quote := if str_mem quote1 s && negb (str_mem quote2 s) then quote2 else quote1 in
  String quote (repr_chars quote s ++ String quote "").

Fixpoint repr (v : json) : string :=
  match v with
  | JNull => "None"
  | JBool true => "True"
  | JBool false => "False"
  | JInt n => str_of_int n
  | JStr s => repr_str s
  | JArr items => "[" ++ String.concat ", " (map repr items) ++ "]"
  | JObj fields =>
      "{" ++ String.concat ", "
               (map (fun kv => repr_str (fst kv) ++ ": " ++ repr (snd kv)) fields)
          ++ "}"
  end.

(** [str(v)], which is what [f'...{v}...'] inserts. *)
Definition str (v : json) : string :=
  match v with
  | JStr s => s
  | _ => repr v
  end.

(** *** Slices *)

(** The bound of a slice over a sequence of length [n]: a negative bound
    counts from the end, and every bound is clipped to [0, n]. *)
Definition slice_bound (n i : Z) : Z :=
  if i <? 0 then Z.max 0 (i + n) else Z.min i n.

(** [l[start:stop]]. *)
Definition slice {A : Type} (l : list A) (start stop : Z) : list A :=
  let n := Z.of_nat (List.length l) in
  let lo := slice_bound n start in
  let hi := slice_bound n stop in
  firstn (Z.to_nat (hi - lo)) (skipn (Z.to_nat lo) l).

End Py.

Import Py.

Notation "x <- m ;; k" := (bind m (fun x => k))
  (at level 61, m at next level, right associativity).

(** ** The pattern match of the database *)

Module Sql.

Section Like.

(** Whether the backslash is the escape character of a LIKE pattern that
    has no ESCAPE clause: it is in PostgreSQL and MySQL, it is not in
    SQLite or in the SQL standard. *)
Variable backslash_escapes : bool.

Definition percent : ascii := "%"%char.

Definition is_escape (c : ascii) : bool :=
  backslash_escapes && Ascii.eqb c backslash.

Definition literal (p : ascii) (text : string) (rest : string -> bool) : bool :=
  match text with
  | EmptyString => false
  | String c text' => Ascii.eqb p c && rest text'
  end.

(** [text LIKE pattern]: [%] stands for any sequence of characters, [_]
    for any one character, the escape character makes the character
    after it stand for itself.  A pattern that ends in the escape
    character is matched as the character itself; the patterns of
    [search_questions] end in [%]. *)
Fixpoint like (pattern text : string) : bool :=
  match pattern with
  | EmptyString =>
      match text with
      | EmptyString => true
      | String _ _ => false
      end
  | String p pattern' =>
      if is_escape p then
        match pattern' with
        | EmptyString => literal p text (like pattern')
        | String q pattern'' => literal q text (like pattern'')
        end
      else if Ascii.eqb p percent then
        (fix from (text : string) : bool :=
           like pattern' text ||
           match text with
           | EmptyString => false
           | String _ text' => from text'
           end) text
      else if Ascii.eqb p underscore then
        match text with
        | EmptyString => false
        | String _ text' => like pattern' text'
        end
      else literal p text (like pattern')
  end.




(** [column.ilike(pattern)]: LIKE without regard to case. *)
Definition ilike (text pattern : string) : bool :=
  like (lower pattern) (lower text).

End Like.

Definition nul : ascii := "000"%char.

(** Whether the database driver takes a string as a parameter of a
    query.  The driver of PostgreSQL refuses a string that holds the
    character NUL, with ValueError; the drivers of SQLite and MySQL take
    every string.  [rejects_nul] tells which of the two the driver does. *)
Definition accepts (rejects_nul : bool) (parameter : string) : bool :=
  negb (rejects_nul && str_mem nul parameter).

End Sql.

(** ** The storage layer *)

Module Models.

(** Modelled from the spec: the records [Category] and [Question] of
    models.py, which is not among the sources, with the fields of section
    3 of the specification; [category] holds the decimal string of a
    category id. *)
Record Category : Type := mkCategory {
  cat_id : Z;
  cat_type : string
}.

Record Question : Type := mkQuestion {
  q_id : Z;
  q_question : string;
  q_answer : string;
  q_category : string;
  q_difficulty : Z
}.

(** The two tables, their rows in the order in which [query.all()] lists
    them, and the sequence that assigns the ids of new questions. *)
Record DB : Type := mkDB {
  categories : list Category;
  questions : list Question;
  questions_id_seq : Z
}.

(** Modelled from the spec: [Question.format] of models.py, which is not
    among the sources.  The formatted question is the object of the
    fields of the record (section 3 of the specification). *)
Definition format (q : Question) : json :=
  JObj [("id", JInt (q_id q));
        ("question", JStr (q_question q));
        ("answer", JStr (q_answer q));
        ("category", JStr (q_category q));
        ("difficulty", JInt (q_difficulty q))].

(** [db.session.get(Question, question_id)]: the row of that primary
    key. *)
Definition session_get (db : DB) (question_id : Z) : option Question :=
  find (fun q => q_id q =? question_id) (questions db).

(** Modelled from the spec: [Question.delete] of models.py, which is not
    among the sources: "deletes the row", "one row removed". *)
Definition delete (db : DB) (q : Question) : DB :=
  mkDB (categories db)
       (filter (fun r => negb (q_id r =? q_id q)) (questions db))
       (questions_id_seq db).

(** Whether a row of the question table has the id. *)
Definition id_in_use (db : DB) (id : Z) : bool :=
  existsb (fun r => q_id r =? id) (questions db).

Section Insert.

(** What the columns of the question table store for the values of the
    four fields of a new question, [None] when the persistence layer
    rejects them (a value that a column cannot take). *)
Variable column_values : json -> json -> json -> json ->
                         option (string * string * string * Z).

(** Modelled from the spec: [Question(...)] and [Question.insert] of
    models.py, which are not among the sources: "inserts a new row",
    whose id is "primary, auto-assigned".  The id is the next one of the
    sequence; the primary key refuses it when a row has that id already
    (IntegrityError), and a refused insert adds no row.  The result is
    the new state and the inserted row. *)
Definition insert (db : DB) (question answer category difficulty : json)
  : result (DB * Question) :=
  match column_values question answer category difficulty with
  | None => Raise DataError
  | Some (qu, an, ca, di) =>
      if id_in_use db (questions_id_seq db) then Raise IntegrityError
      else
        let row := mkQuestion (questions_id_seq db) qu an ca di in
        Ok (mkDB (categories db) (questions db ++ [row]) (questions_id_seq db + 1),
            row)
  end.

End Insert.

(** The primary key of the question table: ids are unique, and the
    sequence is ahead of every id in use. *)
Definition wf (db : DB) : Prop :=
  NoDup (map q_id (questions db)) /\
  forall q, In q (questions db) -> q_id q < questions_id_seq db.

Definition empty (cats : list Category) : DB := mkDB cats [] 1.

End Models.

Import Models.

(** ** The application *)

Module Flaskr.

Definition QUESTIONS_PER_PAGE : Z := 10.

(** The query string of a request: its parameters in order. *)
Definition args : Type := list (string * string).

Fixpoint args_lookup (key : string) (a : args) : option string :=
  match a with
  | [] => None
  | (k, v) :: rest => if String.eqb key k then Some v else args_lookup key rest
  end.

(** [request.args.get(key, default, type=int)]: the default when the
    parameter is absent and when its conversion raises ValueError. *)
Definition args_get_int (a : args) (key : string) (default : Z) : Z :=
  match args_lookup key a with
  | None => default
  | Some s =>
      match int_of_str s with
      | Some n => n
      | None => default
      end
  end.

Definition paginate {A : Type} (format : A -> json) (request_args : args)
           (collection : list A) : list json :=
  let page := args_get_int request_args "page" 1 in
  let start := (page - 1) * QUESTIONS_PER_PAGE in
  let end_ := start + QUESTIONS_PER_PAGE in
  let current_collection := map format collection in
  slice current_collection start end_.

(** The page that [paginate] reads from the query string. *)
Definition page_of (request_args : args) : Z := args_get_int request_args "page" 1.

(** [{category.id: category.type for category in categories}], with the
    keys as [jsonify] writes them, as decimal strings.  The entries stand
    in the order in which the comprehension sets them; the JSON text that
    is sent does not keep that order ([jsonify] sorts the keys), so that
    only the value under each key is a property of the answer. *)
Definition categories_dict (cats : list Category) : json :=
  JObj (fold_left (fun d c => dict_set (str_of_int (cat_id c)) (JStr (cat_type c)) d)
                  cats []).

Definition len {A : Type} (l : list A) : json := JInt (Z.of_nat (List.length l)).

Definition is_empty {A : Type} (l : list A) : bool :=
  match l with
  | [] => true
  | _ :: _ => false
  end.

(** *** Endpoints *)

Definition get_categories (db : DB) : result json :=
  let categories := categories db in
  if is_empty categories then abort 404
  else Ok (JObj [("success", JBool true);
                 ("categories", categories_dict categories)]).

Definition get_questions (db : DB) (request_args : args) : result json :=
  let questions := questions db in
  if is_empty questions then abort 404
  else
    let current_questions := paginate format request_args questions in
    Ok (JObj [("success", JBool true);
              ("questions", JArr current_questions);
              ("current_category", JNull);
              ("total_questions", len questions);
              ("categories", categories_dict (categories db))]).

Definition get_question (db : DB) (question_id : Z) : result json :=
  match session_get db question_id with
  | None => abort 404
  | Some question =>
      let questions := questions db in
      Ok (JObj [("success", JBool true);
                ("questions", JArr [format question]);
                ("current_category", JStr (q_category question));
                ("total_questions", len questions);
                ("categories", categories_dict (categories db))])
  end.

Definition delete_question (db : DB) (question_id : Z) : DB * result json :=
  match session_get db question_id with
  | None => (db, abort 404)
  | Some question =>
      let db' := delete db question in
      let questions := questions db' in
      (db', Ok (JObj [("success", JBool true);
                      ("deleted", JInt question_id);
                      ("total_questions", len questions)]))
  end.

Definition required_fields : list string :=
  ["question"; "answer"; "category"; "difficulty"].

Definition hashable (v : json) : bool :=
  match v with
  | JArr _ | JObj _ => false
  | _ => true
  end.

Definition is_char_of (s key : string) : bool :=
  match key with
  | String c EmptyString => str_mem c s
  | _ => false
  end.

(** [fields.issubset(body)] for a set of strings: the elements of [body]
    are the keys of a dict, the items of a list (which have to be
    hashable) and the characters of a string; the other values cannot be
    iterated. *)
Definition issubset (fields : list string) (body : json) : result bool :=
  match body with
  | JObj d => Ok (forallb (fun k => has_key k d) fields)
  | JArr items =>
      if forallb hashable items
      then Ok (forallb (fun k => existsb (is_str k) items) fields)
      else Raise TypeError
  | JStr s => Ok (forallb (is_char_of s) fields)
  | JNull | JBool _ | JInt _ => Raise TypeError
  end.

Definition select_questions_by_category (db : DB) (request_args : args)
           (category_id : Z) : result json :=
  if negb (existsb (Z.eqb category_id) (map cat_id (categories db))) then abort 404
  else
    let selection :=
      filter (fun q => String.eqb (q_category q) (str_of_int category_id))
             (questions db) in
    let current_questions := paginate format request_args selection in
    Ok (JObj [("success", JBool true);
              ("questions", JArr current_questions);
              ("current_category", JInt category_id);
              ("total_questions", len selection)]).

Section Create.

Variable column_values : json -> json -> json -> json ->
                         option (string * string * string * Z).

(** The body of the [try] of [create_question]. *)
Definition create_question_try (db : DB) (body : json) : result (DB * json) :=
  question <- getitem body "question" ;;
  answer <- getitem body "answer" ;;
  category <- getitem body "category" ;;
  difficulty <- getitem body "difficulty" ;;
  inserted <- insert column_values db question answer category difficulty ;;
  let db' := fst inserted in
  let new_question := snd inserted in
  let questions := questions db' in
  Ok (db', JObj [("success", JBool true);
                 ("created", JInt (q_id new_question));
                 ("total_questions", len questions)]).

Definition create_question (db : DB) (body : json) : DB * result json :=
  if negb (truthy body) then (db, abort 400)
  else
    match issubset required_fields body with
    | Raise e => (db, Raise e)
    | Ok false => (db, abort 400)
    | Ok true =>
        match create_question_try db body with
        | Ok (db', response) => (db', Ok response)
        | Raise _ => (db, abort 422)
        end
    end.

(** The outcome of [create_question] on an object that has the four
    fields, as the properties below state it. *)
Definition created (db : DB) (question answer category difficulty : json)
  : DB * result json :=
  match column_values question answer category difficulty with
  | None => (db, abort 422)
  | Some (qu, an, ca, di) =>
      if id_in_use db (questions_id_seq db) then (db, abort 422)
      else
        (mkDB (categories db)
              (questions db ++ [mkQuestion (questions_id_seq db) qu an ca di])
              (questions_id_seq db + 1),
         Ok (JObj [("success", JBool true);
                   ("created", JInt (questions_id_seq db));
                   ("total_questions",
                    JInt (Z.of_nat (S (List.length (questions db)))))]))
  end.

End Create.

Section Search.

Variable backslash_escapes : bool.
Variable rejects_nul : bool.

(** The query of the search raises the ValueError of the driver when the
    driver does not take the pattern. *)
Definition search_questions (db : DB) (request_args : args) (body : json)
  : result json :=
  if negb (truthy body) then abort 400
  else
    has_term <- contains body "searchTerm" ;;
    if negb has_term then abort 400
    else
      searchTerm <- getitem body "searchTerm" ;;
      let pattern := "%" ++ str searchTerm ++ "%" in
      if negb (Sql.accepts rejects_nul pattern) then Raise ValueError
      else
        let selection :=
          filter (fun q => Sql.ilike backslash_escapes (q_question q) pattern)
                 (questions db) in
        let current_questions := paginate format request_args selection in
        Ok (JObj [("success", JBool true);
                  ("questions", JArr current_questions);
                  ("total_questions", len selection);
                  ("current_category", JNull)]).

End Search.

(** The ids of an exclusion list that holds integers only. *)
Fixpoint id_list (items : list json) : option (list Z) :=
  match items with
  | [] => Some []
  | JInt n :: rest => option_map (cons n) (id_list rest)
  | _ :: _ => None
  end.

(** The digits at the head of a string: their value, their number and the
    rest of the string. *)
Fixpoint pg_scan (s : string) (acc : Z) (digits : nat) : Z * nat * string :=
  match s with
  | EmptyString => (acc, digits, s)
  | String c s' =>
      if is_digit c then pg_scan s' (10 * acc + digit_value c) (S digits)
      else (acc, digits, s)
  end.

Definition pg_unsigned (s : string) : option Z :=
  match pg_scan s 0 0 with
  | (n, digits, rest) =>
      if (digits =? 0)%nat then None
      else if all_space rest then Some n
      else None
  end.

(** The integer that PostgreSQL reads in the text of a literal that it
    compares with an integer column: white space, an optional sign,
    decimal digits, white space, and a value of 32 bits.  [None] stands
    for the error of the database.  (From version 16 on the database
    reads more forms, such as hexadecimal digits; they are errors
    here.) *)
Definition pg_int4 (s : string) : option Z :=
  let value :=
    match lstrip s with
    | String "+" s' => pg_unsigned s'
    | String "-" s' => option_map Z.opp (pg_unsigned s')
    | s' => pg_unsigned s'
    end in
  match value with
  | Some n => if (-2147483648 <=? n) && (n <=? 2147483647) then Some n else None
  | None => None
  end.

(** An element of the list given to [notin_], as the query on PostgreSQL
    has it: an integer; NULL ([None]) for null; for a string the integer
    that the database reads in it, or the error of the database; the
    database or its driver refuse a boolean, a list and an object. *)
Definition sql_literal (v : json) : result (option Z) :=
  match v with
  | JInt n => Ok (Some n)
  | JNull => Ok None
  | JStr s =>
      match pg_int4 s with
      | Some n => Ok (Some n)
      | None => Raise DataError
      end
  | JBool _ | JArr _ | JObj _ => Raise ProgrammingError
  end.

Fixpoint sql_literals (items : list json) : result (list (option Z)) :=
  match items with
  | [] => Ok []
  | v :: rest =>
      x <- sql_literal v ;;
      xs <- sql_literals rest ;;
      Ok (x :: xs)
  end.

(** [id NOT IN (literals)] as a condition of a query: it holds when the
    id equals none of the literals and none of them is NULL. *)
Definition not_in (literals : list (option Z)) (id : Z) : bool :=
  negb (existsb (fun x => match x with Some n => id =? n | None => false end) literals)
  && negb (existsb (fun x => match x with Some _ => false | None => true end) literals).

(** [Question.id.notin_(previous_questions)] and the run of the query that
    holds it.  The query layer takes a list and an object, of which it
    reads the keys, and raises ArgumentError on every other value. *)
Definition notin_ (previous_questions : json) : result (Z -> bool) :=
  match previous_questions with
  | JArr items =>
      literals <- sql_literals items ;;
      Ok (not_in literals)
  | JObj fields =>
      literals <- sql_literals (map (fun kv => JStr (fst kv)) fields) ;;
      Ok (not_in literals)
  | _ => Raise ArgumentError
  end.

(** [previous_questions.append(x)], a method of lists only. *)
Definition append (previous_questions : json) (x : json) : result json :=
  match previous_questions with
  | JArr items => Ok (JArr (items ++ [x]))
  | _ => Raise AttributeError
  end.

(** [random.choice(selection)] for the draw [draw] of the random source:
    the element at index [draw mod len(selection)], IndexError on the
    empty list. *)
Definition choice {A : Type} (draw : nat) (selection : list A) : result A :=
  match nth_error selection (Nat.modulo draw (List.length selection)) with
  | Some x => Ok x
  | None => Raise IndexError
  end.

Definition play_quiz (db : DB) (draw : nat) (body : json) : result json :=
  if negb (truthy body) then abort 400
  else
    has_previous <- contains body "previous_questions" ;;
    if negb has_previous then abort 400
    else
      has_category <- contains body "quiz_category" ;;
      if negb has_category then abort 400
      else
        quiz_category <- getitem body "quiz_category" ;;
        has_id <- contains quiz_category "id" ;;
        if negb has_id then abort 400
        else
          has_type <- contains quiz_category "type" ;;
          if negb has_type then abort 400
          else
            id <- getitem quiz_category "id" ;;
            category_id <- int id ;;
            if negb (existsb (Z.eqb category_id)
                             (map cat_id (categories db) ++ [0]))
            then abort 404
            else
              previous_questions <- getitem body "previous_questions" ;;
              unseen <- notin_ previous_questions ;;
              let selection :=
                if category_id =? 0
                then filter (fun q => unseen (q_id q)) (questions db)
                else filter (fun q => String.eqb (q_category q) (str_of_int category_id)
                                      && unseen (q_id q))
                            (questions db) in
              if is_empty selection then
                message <-
                  (if negb (category_id =? 0)
                   then
                     type <- getitem quiz_category "type" ;;
                     Ok ("No more questions available in the category "
                         ++ str type
                         ++ " (Select another category to continue")
                   else Ok "No more questions available - Add new (question, answer) pairs to continue") ;;
                Ok (JObj [("success", JBool true);
                          ("message", JStr message);
                          ("question", JNull)])
              else
                new_question <- choice draw selection ;;
                previous_questions <-
                  append previous_questions (JInt (q_id new_question)) ;;
                message <-
                  (if negb (category_id =? 0)
                   then
                     type <- getitem quiz_category "type" ;;
                     Ok ("New random question successfully retrieved from category "
                         ++ str type)
                   else Ok "New random question successfully retrieved") ;;
                Ok (JObj [("success", JBool true);
                          ("message", JStr message);
                          ("question", format new_question);
                          ("previous_questions", previous_questions)]).

(** The candidate set of a quiz: the questions of the category, of every
    category for the id 0, whose id is not among [ids]. *)
Definition candidates (db : DB) (category_id : Z) (ids : list Z) : list Question :=
  filter (fun q => (if category_id =? 0 then true
                    else String.eqb (q_category q) (str_of_int category_id))
                   && negb (existsb (Z.eqb (q_id q)) ids))
         (questions db).

(** *** Error handlers *)

Record response : Type := mkResponse {
  payload : json;
  status : Z
}.

Definition error_envelope (code : Z) (message : string) : response :=
  mkResponse (JObj [("success", JBool false);
                    ("error", JInt code);
                    ("message", JStr message)])
             code.

Definition bad_request : response := error_envelope 400 "bad request".
Definition unauthorized : response := error_envelope 401 "unauthorized".
Definition not_found : response := error_envelope 404 "resource not found".
Definition not_allowed : response := error_envelope 405 "not allowed".
Definition unprocessable : response := error_envelope 422 "unprocessable".
Definition internal_server_error : response :=
  error_envelope 500 "internal server error".

(** The response of the application to the outcome of a view function:
    the JSON of a returned value with status 200, the registered handler
    of an HTTP exception, the handler of status 500 for every other
    exception.  An HTTP exception without a registered handler answers
    with its own page, which is not JSON. *)
Definition respond (outcome : result json) : response :=
  match outcome with
  | Ok body => mkResponse body 200
  | Raise (HTTPException code) =>
      if code =? 400 then bad_request
      else if code =? 401 then unauthorized
      else if code =? 404 then not_found
      else if code =? 405 then not_allowed
      else if code =? 422 then unprocessable
      else if code =? 500 then internal_server_error
      else mkResponse JNull code
  | Raise _ => internal_server_error
  end.

End Flaskr.

Import Flaskr.

(** ** Sample data: the categories and questions of the test suite *)

Module Samples.

Definition categories : list Category :=
  [mkCategory 1 "Science"; mkCategory 2 "Art"; mkCategory 3 "Geography";
   mkCategory 4 "History"; mkCategory 5 "Entertainment"; mkCategory 6 "Sports"].

Definition questions : list Question :=
  [mkQuestion 1 "Who invented Python?" "Guido van Rossum" "1" 4;
   mkQuestion 2 "Where is the HQ of OpenAI?" "San Francisco" "3" 3;
   mkQuestion 3 "What is the capital of France?" "Paris" "3" 1;
   mkQuestion 4 "Who won the 2025 champions league?" "PSG" "6" 1].

Definition db : DB := mkDB categories questions 5.

Definition new_question : json :=
  JObj [("question", JStr "Who painted the Mona Lisa?");
        ("answer", JStr "Leonardo da Vinci");
        ("category", JInt 2);
        ("difficulty", JInt 1)].

(** A question table that takes strings and integers for its text
    columns and integers for the difficulty. *)
Definition text (v : json) : option string :=
  match v with
  | JStr s => Some s
  | JInt n => Some (str_of_int n)
  | _ => None
  end.

Definition column_values (question answer category difficulty : json)
  : option (string * string * string * Z) :=
  match text question, text answer, text category, difficulty with
  | Some qu, Some an, Some ca, JInt di => Some (qu, an, ca, di)
  | _, _, _, _ => None
  end.

Definition quiz (previous_questions : list json) (id : json) : json :=
  JObj [("previous_questions", JArr previous_questions);
        ("quiz_category", JObj [("type", JStr "Science"); ("id", id)])].

Fixpoint numbered (n : nat) : list Question :=
  match n with
  | O => []
  | S n' => numbered n' ++ [mkQuestion (Z.of_nat n) "Q" "A" "1" 1]
  end.

End Samples.

(** ** Notions that the further properties are stated with *)

(** An exception that is not an HTTP exception: the application answers
    it with status 500. *)
Definition nonhttp (e : exn) : Prop :=
  match e with
  | HTTPException _ => False
  | _ => True
  end.

(** The response to [outcome] has one of the given statuses and the
    envelope of the application: its [success] field tells whether the
    status is 200, and an error carries its status in the [error] field. *)
Definition answers (statuses : list Z) (outcome : result json) : Prop :=
  let r := respond outcome in
  In (status r) statuses /\
  get (payload r) "success" = Some (JBool (status r =? 200)) /\
  (status r <> 200 -> get (payload r) "error" = Some (JInt (status r))).


(** The query string [?page=p]. *)
Definition page_request (p : Z) : args := [("page", str_of_int p)].

(** The number that the digits of a decimal numeral add to [acc], most
    significant digit first. *)
Fixpoint uint_value (d : Decimal.uint) (acc : Z) : Z :=
  match d with
  | Decimal.Nil => acc
  | Decimal.D0 l => uint_value l (10 * acc)
  | Decimal.D1 l => uint_value l (10 * acc + 1)
  | Decimal.D2 l => uint_value l (10 * acc + 2)
  | Decimal.D3 l => uint_value l (10 * acc + 3)
  | Decimal.D4 l => uint_value l (10 * acc + 4)
  | Decimal.D5 l => uint_value l (10 * acc + 5)
  | Decimal.D6 l => uint_value l (10 * acc + 6)
  | Decimal.D7 l => uint_value l (10 * acc + 7)
  | Decimal.D8 l => uint_value l (10 * acc + 8)
  | Decimal.D9 l => uint_value l (10 * acc + 9)
  end.

(** * Properties *)

(** ** Slices and pages *)

Section Slices.

Context {A : Type}.
Implicit Types l : list A.

Lemma firstn_clip (k : nat) l :
  firstn k l = firstn (Nat.min k (List.length l)) l.
Proof.
  destruct (Nat.le_ge_cases k (List.length l)) as [Hle | Hge].
  - now rewrite Nat.min_l.
  - rewrite Nat.min_r by assumption.
    now rewrite !firstn_all2.
Qed.

Lemma firstn_same_clip (j k : nat) l :
  Nat.min j (List.length l) = Nat.min k (List.length l) ->
  firstn j l = firstn k l.
Proof.
  intros E. rewrite (firstn_clip j), (firstn_clip k). now rewrite E.
Qed.

(** A slice with bounds [0 <= start <= stop] drops [start] items and
    keeps the next [stop - start], as far as there are any. *)
Lemma slice_from_start l (start stop : Z) :
  0 <= start <= stop ->
  slice l start stop = firstn (Z.to_nat (stop - start)) (skipn (Z.to_nat start) l).
Proof.
  intros [H0 Hle]. unfold slice, slice_bound.
  destruct (Z.ltb_spec start 0) as [? | _]; [lia |].
  destruct (Z.ltb_spec stop 0) as [? | _]; [lia |].
  set (n := Z.of_nat (List.length l)).
  destruct (Z.le_gt_cases start n) as [Hin | Hout].
  - rewrite (Z.min_l start n) by assumption.
    apply firstn_same_clip. rewrite length_skipn. lia.
  - rewrite (Z.min_r start n), (Z.min_r stop n) by lia.
    rewrite Z.sub_diag. simpl.
    rewrite skipn_all2 by lia. now destruct (Z.to_nat (stop - start)).
Qed.

(** A slice whose two bounds are negative counts both from the end. *)
Lemma slice_from_end l (start stop : Z) :
  start < 0 -> stop < 0 ->
  let n := Z.of_nat (List.length l) in
  slice l start stop =
  firstn (Z.to_nat (Z.max 0 (stop + n) - Z.max 0 (start + n)))
         (skipn (Z.to_nat (Z.max 0 (start + n))) l).
Proof.
  intros Hs He n. unfold slice, slice_bound.
  destruct (Z.ltb_spec start 0); [| lia].
  destruct (Z.ltb_spec stop 0); [| lia].
  reflexivity.
Qed.

Lemma slice_stop_zero l (start : Z) : slice l start 0 = [].
Proof.
  unfold slice, slice_bound. simpl (0 <? 0).
  set (n := Z.of_nat (List.length l)).
  assert (Hlo : 0 <= (if start <? 0 then Z.max 0 (start + n) else Z.min start n)).
  { destruct (Z.ltb_spec start 0); lia. }
  replace (Z.to_nat (Z.min 0 n - _)) with 0%nat by lia.
  reflexivity.
Qed.

Lemma firstn_skipn_nonempty (k lo : nat) l :
  (0 < k)%nat -> (lo < List.length l)%nat -> firstn k (skipn lo l) <> [].
Proof.
  intros Hk Hlo E.
  apply (f_equal (@List.length A)) in E.
  rewrite length_firstn, length_skipn in E. simpl in E. lia.
Qed.

Lemma firstn_skipn_past_end (k lo : nat) l :
  (List.length l <= lo)%nat -> firstn k (skipn lo l) = [].
Proof.
  intros H. rewrite skipn_all2 by assumption. now destruct k.
Qed.

End Slices.

Section Pages.

Context {A : Type}.
Variable format : A -> json.

Lemma paginate_slice (request_args : args) (collection : list A) :
  paginate format request_args collection =
  slice (map format collection)
        ((page_of request_args - 1) * 10) ((page_of request_args - 1) * 10 + 10).
Proof. reflexivity. Qed.

Lemma page_of_absent (request_args : args) :
  args_lookup "page" request_args = None -> page_of request_args = 1.
Proof. unfold page_of, args_get_int. now intros ->. Qed.

Lemma page_of_present (request_args : args) (s : string) (p : Z) :
  args_lookup "page" request_args = Some s -> int_of_str s = Some p ->
  page_of request_args = p.
Proof. unfold page_of, args_get_int. now intros -> ->. Qed.

Lemma paginate_from_start (request_args : args) (collection : list A) (p : Z) :
  page_of request_args = p ->
  1 <= p ->
  paginate format request_args collection =
  firstn 10 (skipn (Z.to_nat ((p - 1) * 10)) (map format collection)).
Proof.
  intros Hp Hge. rewrite paginate_slice, Hp, slice_from_start by lia.
  f_equal. lia.
Qed.

Lemma paginate_past_end (request_args : args) (collection : list A) (p : Z) :
  page_of request_args = p ->
  1 <= p ->
  Z.of_nat (List.length collection) <= (p - 1) * 10 ->
  paginate format request_args collection = [].
Proof.
  intros Hp Hge Hpast. rewrite (paginate_from_start request_args collection p Hp Hge).
  apply firstn_skipn_past_end. rewrite length_map. lia.
Qed.

(** C2. For a page number [p >= 1], whether read from the query string
    or taken by default, [paginate] returns the formatted items at the
    indices from [(p-1)*10] up to [p*10], as far as the collection goes:
    item [i] of the page is item [(p-1)*10 + i] of the formatted
    collection for [i < 10], and the page has no further item; a page
    that starts past the end is empty; and an absent [page] parameter
    stands for page 1, the first ten items. *)
Theorem paginate_page (request_args : args) (collection : list A) (p : Z) :
  page_of request_args = p ->
  1 <= p ->
  let items := map format collection in
  let first := Z.to_nat ((p - 1) * 10) in
  paginate format request_args collection = firstn 10 (skipn first items) /\
  (forall i : nat,
      nth_error (paginate format request_args collection) i =
      if (i <? 10)%nat then nth_error items (first + i) else None) /\
  (Z.of_nat (List.length collection) <= (p - 1) * 10 ->
   paginate format request_args collection = []) /\
  (args_lookup "page" request_args = None ->
   p = 1 /\ paginate format request_args collection = firstn 10 items).
Proof.
  intros Hp Hge items first.
  pose proof (paginate_from_start request_args collection p Hp Hge) as E.
  fold items first in E.
  split; [exact E |]. split; [| split].
  - intros i. rewrite E, nth_error_firstn, nth_error_skipn. reflexivity.
  - now apply paginate_past_end.
  - intros Habsent. apply page_of_absent in Habsent.
    assert (H1 : p = 1) by congruence. split; [assumption |].
    rewrite E. subst first. rewrite H1. reflexivity.
Qed.

(** C9. [paginate] is a total function of the page: it yields a list for
    every integer.  For page 0 the list is empty.  For a negative page
    [p] both bounds of the slice count from the end of the collection:
    over [n] items the result runs from index [max 0 (n + (p-1)*10)] up
    to index [max 0 (n + p*10)], so it is not empty as soon as
    [n > -p*10] and empty otherwise; page -1 over 30 items is the items
    at the indices 10 to 19. *)
Theorem paginate_nonpositive_page (request_args : args) (collection : list A) (p : Z) :
  page_of request_args = p ->
  p <= 0 ->
  let items := map format collection in
  let n := Z.of_nat (List.length collection) in
  (p = 0 -> paginate format request_args collection = []) /\
  (p < 0 ->
   paginate format request_args collection =
   firstn (Z.to_nat (Z.max 0 (n + p * 10) - Z.max 0 (n + (p - 1) * 10)))
          (skipn (Z.to_nat (Z.max 0 (n + (p - 1) * 10))) items) /\
   (- p * 10 < n -> paginate format request_args collection <> []) /\
   (n <= - p * 10 -> paginate format request_args collection = [])) /\
  (p = -1 -> n = 30 ->
   paginate format request_args collection = firstn 10 (skipn 10 items)).
Proof.
  intros Hp Hle items n.
  assert (Hn : Z.of_nat (List.length items) = n).
  { subst items n. now rewrite length_map. }
  assert (E : p < 0 ->
              paginate format request_args collection =
              firstn (Z.to_nat (Z.max 0 (n + p * 10) - Z.max 0 (n + (p - 1) * 10)))
                     (skipn (Z.to_nat (Z.max 0 (n + (p - 1) * 10))) items)).
  { intros Hneg. rewrite paginate_slice, Hp, slice_from_end by lia.
    fold items. rewrite Hn. f_equal; [| f_equal]; lia. }
  split; [| split].
  - intros ->. rewrite paginate_slice, Hp. apply slice_stop_zero.
  - intros Hneg. split; [exact (E Hneg) |]. rewrite (E Hneg). split.
    + intros Hlong. apply firstn_skipn_nonempty; lia.
    + intros Hshort.
      replace (Z.to_nat (Z.max 0 (n + p * 10) - _)) with 0%nat by lia.
      reflexivity.
  - intros -> Hlen. rewrite E by lia. rewrite Hlen. reflexivity.
Qed.

End Pages.

(** ** Responses *)

Lemma has_key_lookup (key : string) (fields : list (string * json)) :
  has_key key fields = true <-> exists v, lookup key fields = Some v.
Proof.
  unfold has_key. destruct (lookup key fields) as [v |]; split.
  - now exists v.
  - reflexivity.
  - discriminate.
  - intros [v H]. discriminate.
Qed.

(** ** Listings *)

(** C4. [GET /categories] answers NotFound (404) exactly when the category
    table is empty, and [GET /questions] exactly when the question table is
    empty.  The test of [GET /questions] is on the table and not on the
    page: over a table with a question every page, also one past the end,
    is answered with success, the page's items and the size of the
    table. *)
Theorem listings_not_found (db : DB) (request_args : args) :
  (respond (get_categories db) = not_found <-> categories db = []) /\
  (respond (get_questions db request_args) = not_found <-> questions db = []) /\
  (questions db <> [] ->
   get_questions db request_args =
   Ok (JObj [("success", JBool true);
             ("questions", JArr (paginate format request_args (questions db)));
             ("current_category", JNull);
             ("total_questions", JInt (Z.of_nat (List.length (questions db))));
             ("categories", categories_dict (categories db))]) /\
   status (respond (get_questions db request_args)) = 200 /\
   (1 <= page_of request_args ->
    Z.of_nat (List.length (questions db)) <= (page_of request_args - 1) * 10 ->
    paginate format request_args (questions db) = [])).
Proof.
  unfold get_categories, get_questions.
  split; [| split].
  - destruct (categories db); cbn; unfold not_found, error_envelope;
      split; congruence.
  - destruct (questions db); cbn; unfold not_found, error_envelope;
      split; congruence.
  - intros Hne. destruct (questions db) as [| q rest] eqn:E; [congruence |].
    change (is_empty (q :: rest)) with false. cbv iota.
    split; [reflexivity |]. split; [reflexivity |].
    intros Hp Hpast.
    now apply (paginate_past_end format request_args (q :: rest) (page_of request_args)).
Qed.

(** ** One question *)

Lemma session_get_none (db : DB) (question_id : Z) :
  session_get db question_id = None <->
  forall q, In q (questions db) -> q_id q <> question_id.
Proof.
  unfold session_get. split.
  - intros H q Hin. apply (find_none _ _ H) in Hin. lia.
  - intros H. destruct (find _ _) as [q |] eqn:E; [| reflexivity].
    apply find_some in E as [Hin Heq]. apply H in Hin. lia.
Qed.

Lemma session_get_some (db : DB) (question_id : Z) (q : Question) :
  session_get db question_id = Some q ->
  In q (questions db) /\ q_id q = question_id.
Proof.
  unfold session_get. intros H. apply find_some in H as [Hin Heq].
  split; [assumption | lia].
Qed.

(** ** The map of the categories *)

Lemma str_of_int_inj (a b : Z) : str_of_int a = str_of_int b -> a = b.
Proof.
  unfold str_of_int. intros E. apply DecimalZ.to_int_inj.
  assert (Hnil : forall n, Z.to_int n <> Decimal.Pos Decimal.Nil /\
                           Z.to_int n <> Decimal.Neg Decimal.Nil).
  { intros [| p | p]; simpl; split; try discriminate;
      intros [= H]; now apply Unsigned.to_uint_nonnil in H. }
  pose proof (NilZero.isi (Z.to_int a) (proj1 (Hnil a)) (proj2 (Hnil a))) as Ha.
  pose proof (NilZero.isi (Z.to_int b) (proj1 (Hnil b)) (proj2 (Hnil b))) as Hb.
  rewrite E in Ha. congruence.
Qed.

Lemma lookup_dict_set (key k : string) (v : json) (d : list (string * json)) :
  lookup key (dict_set k v d) = if String.eqb key k then Some v else lookup key d.
Proof.
  induction d as [| [k' w] rest IH]; [reflexivity |].
  cbn [dict_set].
  destruct (String.eqb_spec k k') as [<- | Hne].
  - cbn [lookup]. now destruct (String.eqb key k).
  - cbn [lookup]. rewrite IH.
    destruct (String.eqb_spec key k') as [<- | _]; [| reflexivity].
    destruct (String.eqb_spec key k) as [E | _]; [now contradiction Hne | reflexivity].
Qed.

Lemma find_app_first {A : Type} (p : A -> bool) (l l' : list A) :
  find p (l ++ l')%list =
  match find p l with
  | Some x => Some x
  | None => find p l'
  end.
Proof.
  induction l as [| x l IH]; [reflexivity |].
  cbn [app find]. now destruct (p x).
Qed.

(** The value under a key of the dict of the comprehension is the type of
    the last category of the table whose id is written as the key. *)
Lemma categories_lookup (cats : list Category) (acc : list (string * json))
      (key : string) :
  lookup key
    (fold_left (fun d c => dict_set (str_of_int (cat_id c)) (JStr (cat_type c)) d)
               cats acc)
  = match find (fun c => String.eqb key (str_of_int (cat_id c))) (rev cats) with
    | Some c => Some (JStr (cat_type c))
    | None => lookup key acc
    end.
Proof.
  revert acc. induction cats as [| c rest IH]; intros acc; [reflexivity |].
  cbn [fold_left rev]. rewrite IH, find_app_first.
  destruct (find _ (rev rest)); [reflexivity |].
  cbn [find]. rewrite lookup_dict_set.
  now destruct (String.eqb key (str_of_int (cat_id c))).
Qed.

Lemma categories_dict_get (cats : list Category) (key : string) :
  get (categories_dict cats) key =
  option_map (fun c => JStr (cat_type c))
             (find (fun c => String.eqb key (str_of_int (cat_id c))) (rev cats)).
Proof.
  unfold categories_dict. cbn [get]. rewrite categories_lookup.
  now destruct (find _ (rev cats)).
Qed.

(** Every entry of the map is the id and the type of a category. *)
Lemma categories_dict_entry (cats : list Category) (key : string) (v : json) :
  get (categories_dict cats) key = Some v ->
  exists c, In c cats /\ key = str_of_int (cat_id c) /\ v = JStr (cat_type c).
Proof.
  rewrite categories_dict_get.
  destruct (find _ (rev cats)) as [c |] eqn:E; [| discriminate].
  intros [= <-]. apply find_some in E as [Hin Hkey].
  exists c. split; [now apply in_rev | split; [now apply String.eqb_eq | reflexivity]].
Qed.

(** Every category has an entry under its id, which holds the type of a
    category of that id. *)
Lemma categories_dict_has (cats : list Category) (c : Category) :
  In c cats ->
  exists c', In c' cats /\ cat_id c' = cat_id c /\
             get (categories_dict cats) (str_of_int (cat_id c))
             = Some (JStr (cat_type c')).
Proof.
  intros Hin. rewrite categories_dict_get.
  destruct (find _ (rev cats)) as [c' |] eqn:E.
  - apply find_some in E as [Hin' Hkey]. apply String.eqb_eq in Hkey.
    exists c'. split; [now apply in_rev |].
    split; [symmetry; now apply str_of_int_inj | reflexivity].
  - exfalso. apply in_rev in Hin.
    pose proof (find_none _ _ E c Hin) as Hc. cbv beta in Hc.
    now rewrite String.eqb_refl in Hc.
Qed.

(** C8. [GET /questions/{id}] answers NotFound (404) when no question has
    that id.  Otherwise it answers with a question of that id: the list of
    that one formatted question, its category as [current_category], the
    number of questions, and the map of the categories.  The map holds,
    under the decimal string of the id of each category, the type of the
    category of that id (of the last one of the table, should two
    categories have the same id), and it holds nothing else. *)
Theorem get_question_found_or_not (db : DB) (question_id : Z) :
  ((forall q, In q (questions db) -> q_id q <> question_id) ->
   respond (get_question db question_id) = not_found) /\
  ((exists q, In q (questions db) /\ q_id q = question_id) ->
   exists (question : Question) (categories_map : json),
     In question (questions db) /\ q_id question = question_id /\
     get_question db question_id =
     Ok (JObj [("success", JBool true);
               ("questions", JArr [format question]);
               ("current_category", JStr (q_category question));
               ("total_questions", JInt (Z.of_nat (List.length (questions db))));
               ("categories", categories_map)]) /\
     status (respond (get_question db question_id)) = 200 /\
     (forall key : string,
         get categories_map key =
         option_map (fun c => JStr (cat_type c))
                    (find (fun c => String.eqb key (str_of_int (cat_id c)))
                          (rev (categories db)))) /\
     (forall c, In c (categories db) ->
                exists c', In c' (categories db) /\ cat_id c' = cat_id c /\
                           get categories_map (str_of_int (cat_id c))
                           = Some (JStr (cat_type c'))) /\
     (forall (key : string) (v : json),
         get categories_map key = Some v ->
         exists c, In c (categories db) /\
                   key = str_of_int (cat_id c) /\ v = JStr (cat_type c))).
Proof.
  unfold get_question. split.
  - intros Hnone. apply session_get_none in Hnone. now rewrite Hnone.
  - intros [q [Hin Hid]].
    destruct (session_get db question_id) as [question |] eqn:E.
    + apply session_get_some in E as [Hin' Hid'].
      exists question, (categories_dict (categories db)).
      split; [assumption |]. split; [assumption |].
      split; [reflexivity |]. split; [reflexivity |].
      split; [apply categories_dict_get |].
      split; [apply categories_dict_has | apply categories_dict_entry].
    + exfalso. apply (proj1 (session_get_none db question_id) E q Hin Hid).
Qed.

(** ** The question table *)

Lemma wf_empty (cats : list Category) : wf (empty cats).
Proof.
  split; simpl.
  - constructor.
  - intros q [].
Qed.

Lemma delete_wf (db : DB) (q : Question) : wf db -> wf (delete db q).
Proof.
  intros [Hnodup Hseq]. split; simpl.
  - clear Hseq. induction (questions db) as [| r rest IH]; simpl; [constructor |].
    inversion Hnodup as [| ? ? Hnotin Hrest]; subst.
    destruct (negb (q_id r =? q_id q)); simpl; [| now apply IH].
    constructor; [| now apply IH].
    intros Hin. apply Hnotin.
    apply in_map_iff in Hin as [r' [Hid Hin]].
    apply filter_In in Hin as [Hin _].
    apply in_map_iff. now exists r'.
  - intros r Hin. apply filter_In in Hin as [Hin _]. now apply Hseq.
Qed.

(** Deleting a row whose id is in no row of a list leaves the list. *)
Lemma filter_other_ids (id : Z) (rows : list Question) :
  (forall r, In r rows -> q_id r <> id) ->
  filter (fun r => negb (q_id r =? id)) rows = rows.
Proof.
  intros H. apply forallb_filter_id. apply forallb_forall.
  intros r Hin. apply H in Hin. apply negb_true_iff. lia.
Qed.

Lemma wf_seq_fresh (db : DB) :
  wf db -> forall r, In r (questions db) -> q_id r <> questions_id_seq db.
Proof. intros [_ Hseq] r Hin. apply Hseq in Hin. lia. Qed.

(** A new row with the next id of the sequence keeps the primary key. *)
Lemma wf_add_row (db : DB) (qu an ca : string) (di : Z) :
  wf db ->
  wf (mkDB (categories db)
           (questions db ++ [mkQuestion (questions_id_seq db) qu an ca di])
           (questions_id_seq db + 1)).
Proof.
  intros Hwf. pose proof (wf_seq_fresh db Hwf) as Hfresh.
  destruct Hwf as [Hnodup Hseq]. split; simpl.
  - rewrite map_app. apply NoDup_app; simpl.
    + assumption.
    + constructor; [intros [] | constructor].
    + intros id Hin [<- | []].
      apply in_map_iff in Hin as [r [Hid Hin]].
      now apply (Hfresh r).
  - intros r Hin. apply in_app_iff in Hin as [Hin | [<- | []]].
    + apply Hseq in Hin. lia.
    + simpl. lia.
Qed.

Section Creation.

Variable column_values : json -> json -> json -> json ->
                         option (string * string * string * Z).

Lemma insert_wf (db db' : DB) (question answer category difficulty : json)
      (row : Question) :
  wf db ->
  insert column_values db question answer category difficulty = Ok (db', row) ->
  wf db'.
Proof.
  intros Hwf. unfold insert.
  destruct (column_values _ _ _ _) as [[[[qu an] ca] di] |]; [| discriminate].
  destruct (id_in_use db (questions_id_seq db)); [discriminate |].
  intros [= <- <-]. now apply wf_add_row.
Qed.

Lemma create_question_object (db : DB) (fields : list (string * json)) :
  create_question column_values db (JObj fields) =
  if forallb (fun k => has_key k fields) required_fields
  then match create_question_try column_values db (JObj fields) with
       | Ok (db', response) => (db', Ok response)
       | Raise _ => (db, abort 422)
       end
  else (db, abort 400).
Proof.
  unfold create_question. destruct fields as [| f rest]; [reflexivity |].
  cbn [truthy negb issubset].
  now destruct (forallb _ required_fields).
Qed.

Lemma create_question_fields (db : DB) (fields : list (string * json))
      (question answer category difficulty : json) :
  lookup "question" fields = Some question ->
  lookup "answer" fields = Some answer ->
  lookup "category" fields = Some category ->
  lookup "difficulty" fields = Some difficulty ->
  create_question column_values db (JObj fields) =
  created column_values db question answer category difficulty.
Proof.
  intros Hq Ha Hc Hd. rewrite create_question_object.
  unfold required_fields, forallb, has_key. rewrite Hq, Ha, Hc, Hd.
  cbn [andb]. unfold create_question_try, getitem, bind, insert, created.
  rewrite Hq, Ha, Hc, Hd.
  destruct (column_values _ _ _ _) as [[[[qu an] ca] di] |]; [| reflexivity].
  destruct (id_in_use db (questions_id_seq db)); [reflexivity |].
  cbn [fst snd questions q_id]. unfold len.
  rewrite length_app, Nat.add_1_r. reflexivity.
Qed.

Lemma create_question_missing (db : DB) (fields : list (string * json)) (key : string) :
  In key required_fields -> has_key key fields = false ->
  create_question column_values db (JObj fields) = (db, abort 400).
Proof.
  intros Hin Hkey. rewrite create_question_object.
  destruct (forallb _ required_fields) eqn:E; [| reflexivity].
  rewrite forallb_forall in E. rewrite (E key Hin) in Hkey. discriminate.
Qed.

End Creation.

Section CreationProperties.

Variable column_values : json -> json -> json -> json ->
                         option (string * string * string * Z).


(** The primary key makes the next id of the sequence a free one. *)
Lemma wf_id_free (db : DB) : wf db -> id_in_use db (questions_id_seq db) = false.
Proof.
  intros Hwf. unfold id_in_use.
  destruct (existsb _ (questions db)) eqn:E; [| reflexivity].
  apply existsb_exists in E as [r [Hin Hid]].
  exfalso. apply (wf_seq_fresh db Hwf r Hin). lia.
Qed.



(** When [create_question] succeeds its body is an object with the four
    fields and the persistence layer took their values. *)
Lemma create_question_ok (db db1 : DB) (body response : json) :
  create_question column_values db body = (db1, Ok response) ->
  exists qu an ca di,
    db1 = mkDB (categories db)
               (questions db ++ [mkQuestion (questions_id_seq db) qu an ca di])
               (questions_id_seq db + 1) /\
    response = JObj [("success", JBool true);
                     ("created", JInt (questions_id_seq db));
                     ("total_questions",
                      JInt (Z.of_nat (S (List.length (questions db)))))].
Proof.
  destruct body as [| b | n | s | items | fields].
  - discriminate.
  - unfold create_question. simpl. destruct b; discriminate.
  - unfold create_question. simpl. destruct (n =? 0); discriminate.
  - unfold create_question. simpl. destruct (String.eqb s ""); discriminate.
  - unfold create_question. destruct items as [| i rest]; [discriminate |].
    cbn [truthy negb issubset].
    destruct (forallb hashable _); [| discriminate].
    destruct (forallb _ required_fields); discriminate.
  - destruct (has_key "question" fields) eqn:Eq;
      [| now rewrite (create_question_missing _ db fields "question") by (simpl; tauto)].
    destruct (has_key "answer" fields) eqn:Ea;
      [| now rewrite (create_question_missing _ db fields "answer") by (simpl; tauto)].
    destruct (has_key "category" fields) eqn:Ec;
      [| now rewrite (create_question_missing _ db fields "category") by (simpl; tauto)].
    destruct (has_key "difficulty" fields) eqn:Ed;
      [| now rewrite (create_question_missing _ db fields "difficulty") by (simpl; tauto)].
    apply has_key_lookup in Eq as [q Eq], Ea as [a Ea], Ec as [c Ec], Ed as [d Ed].
    rewrite (create_question_fields column_values db fields q a c d) by assumption.
    unfold created.
    destruct (column_values q a c d) as [[[[qu an] ca] di] |]; [| discriminate].
    destruct (id_in_use db (questions_id_seq db)); [discriminate |].
    intros [= <- <-]. now exists qu, an, ca, di.
Qed.

(** The primary key holds in every state that the handlers reach. *)
Lemma create_question_wf (db : DB) (body : json) :
  wf db -> wf (fst (create_question column_values db body)).
Proof.
  intros Hwf.
  destruct (create_question column_values db body) as [db1 [response | e]] eqn:E.
  - apply create_question_ok in E as [qu [an [ca [di [-> _]]]]].
    now apply wf_add_row.
  - replace db1 with db; [exact Hwf |].
    revert E. unfold create_question.
    destruct (negb (truthy body)); [now intros [= <- _] |].
    destruct (issubset required_fields body) as [[] |]; try now intros [= <- _].
    destruct (create_question_try column_values db body) as [[db' r] |];
      [discriminate | now intros [= <- _]].
Qed.

Lemma delete_question_wf (db : DB) (question_id : Z) :
  wf db -> wf (fst (delete_question db question_id)).
Proof.
  intros Hwf. unfold delete_question.
  destruct (session_get db question_id) as [q |]; simpl; [| exact Hwf].
  now apply delete_wf.
Qed.

(** C7. From a state in which the primary key of the question table
    holds, a successful [POST /questions] answers with the id of the new
    question, [DELETE /questions/{that id}] then succeeds and reports the
    number of questions there were before the creation, the table is
    again the table before the creation, and [GET /questions/{that id}]
    answers NotFound (404). *)
Theorem create_then_delete (db db1 : DB) (body response : json) :
  wf db ->
  create_question column_values db body = (db1, Ok response) ->
  exists (id : Z) (db2 : DB),
    response = JObj [("success", JBool true);
                     ("created", JInt id);
                     ("total_questions",
                      JInt (Z.of_nat (S (List.length (questions db)))))] /\
    delete_question db1 id =
    (db2, Ok (JObj [("success", JBool true);
                    ("deleted", JInt id);
                    ("total_questions",
                     JInt (Z.of_nat (List.length (questions db))))])) /\
    questions db2 = questions db /\
    respond (get_question db2 id) = not_found.
Proof.
  intros Hwf Hcreate.
  pose proof (wf_seq_fresh db Hwf) as Hfresh.
  apply create_question_ok in Hcreate as [qu [an [ca [di [-> ->]]]]].
  set (id := questions_id_seq db).
  set (row := mkQuestion id qu an ca di).
  assert (Hget : session_get (mkDB (categories db) (questions db ++ [row]) (id + 1)) id
                 = Some row).
  { unfold session_get. cbn [questions].
    induction (questions db) as [| r rest IH]; simpl.
    - now rewrite Z.eqb_refl.
    - destruct (Z.eqb_spec (q_id r) id) as [E | _].
      + exfalso. apply (Hfresh r); [now left | exact E].
      + apply IH. intros r' Hin. apply Hfresh. now right. }
  assert (Hdel : filter (fun r => negb (q_id r =? id)) (questions db ++ [row])
                 = questions db).
  { rewrite filter_app, (filter_other_ids id) by assumption.
    simpl. rewrite Z.eqb_refl. simpl. apply app_nil_r. }
  exists id, (mkDB (categories db) (questions db) (id + 1)).
  split; [reflexivity |]. split; [| split].
  - unfold delete_question. rewrite Hget. unfold delete.
    cbn [questions categories questions_id_seq q_id row].
    rewrite Hdel. reflexivity.
  - reflexivity.
  - unfold get_question.
    replace (session_get _ id) with (@None Question); [reflexivity |].
    symmetry. apply session_get_none. exact Hfresh.
Qed.

End CreationProperties.

(** ** Patterns and substrings *)

Section LikeProperties.

Variable esc : bool.

Lemma like_percent (p text : string) :
  Sql.like esc (String Sql.percent p) text =
  Sql.like esc p text ||
  match text with
  | EmptyString => false
  | String _ text' => Sql.like esc (String Sql.percent p) text'
  end.
Proof. destruct text; destruct esc; reflexivity. Qed.

Lemma like_percent_only (text : string) :
  Sql.like esc (String Sql.percent EmptyString) text = true.
Proof.
  induction text as [| c text IH]; rewrite like_percent.
  - reflexivity.
  - rewrite IH. apply orb_true_r.
Qed.




Lemma lower_app (s t : string) : lower (s ++ t) = lower s ++ lower t.
Proof. induction s as [| c s IH]; simpl; [reflexivity | now rewrite IH]. Qed.





End LikeProperties.

(** ** Search *)

Lemma paginate_nil {A : Type} (format : A -> json) (request_args : args) :
  paginate format request_args [] = [].
Proof.
  rewrite paginate_slice. unfold slice. simpl map.
  rewrite skipn_nil. apply firstn_nil.
Qed.

Section SearchProperties.

Variable esc : bool.
Variable nul : bool.

Lemma search_questions_object (db : DB) (request_args : args)
      (fields : list (string * json)) :
  search_questions esc nul db request_args (JObj fields) =
  match lookup "searchTerm" fields with
  | None => abort 400
  | Some searchTerm =>
      if Sql.accepts nul ("%" ++ str searchTerm ++ "%")
      then
        let selection :=
          filter (fun q => Sql.ilike esc (q_question q) ("%" ++ str searchTerm ++ "%"))
                 (questions db) in
        Ok (JObj [("success", JBool true);
                  ("questions", JArr (paginate format request_args selection));
                  ("total_questions", JInt (Z.of_nat (List.length selection)));
                  ("current_category", JNull)])
      else Raise ValueError
  end.
Proof.
  unfold search_questions. destruct fields as [| f rest]; [reflexivity |].
  cbn [truthy negb contains getitem bind]. unfold has_key.
  destruct (lookup "searchTerm" (f :: rest)) as [searchTerm |]; [| reflexivity].
  cbn [negb bind]. now destruct (Sql.accepts nul _).
Qed.



End SearchProperties.


(** ** The quiz *)

Lemma truthy_has_key (key : string) (fields : list (string * json)) :
  has_key key fields = true -> truthy (JObj fields) = true.
Proof. destruct fields; [discriminate | reflexivity]. Qed.

Lemma lookup_has_key (key : string) (fields : list (string * json)) (v : json) :
  lookup key fields = Some v -> has_key key fields = true.
Proof. unfold has_key. now intros ->. Qed.

Lemma id_list_ints (items : list json) (ids : list Z) :
  id_list items = Some ids -> items = map JInt ids.
Proof.
  revert ids. induction items as [| v rest IH]; intros ids.
  - now intros [= <-].
  - destruct v; try discriminate. simpl.
    destruct (id_list rest) as [ids' |]; [| discriminate].
    intros [= <-]. simpl. now rewrite (IH ids').
Qed.

(** On a list of integers the condition of [notin_] is that the id is
    not in the list. *)
Lemma sql_literals_ids (items : list json) (ids : list Z) :
  id_list items = Some ids -> sql_literals items = Ok (map Some ids).
Proof.
  intros H. apply id_list_ints in H. subst items.
  induction ids as [| n ids IH]; [reflexivity |].
  cbn [map sql_literals sql_literal bind]. now rewrite IH.
Qed.

Lemma not_in_ids (ids : list Z) (id : Z) :
  not_in (map Some ids) id = negb (existsb (Z.eqb id) ids).
Proof.
  unfold not_in.
  replace (existsb _ (map Some ids)) with (existsb (Z.eqb id) ids)
    by (induction ids as [| n ids IH]; simpl; [reflexivity | now rewrite IH]).
  replace (existsb (fun x : option Z => match x with Some _ => false | None => true end)
                   (map Some ids)) with false
    by (induction ids as [| n ids IH]; simpl; [reflexivity | exact IH]).
  apply andb_true_r.
Qed.

Lemma notin_ids (items : list json) (ids : list Z) :
  id_list items = Some ids -> notin_ (JArr items) = Ok (not_in (map Some ids)).
Proof. intros H. unfold notin_. now rewrite (sql_literals_ids items ids H). Qed.

Lemma existsb_Zeqb (x : Z) (l : list Z) : existsb (Z.eqb x) l = true <-> In x l.
Proof.
  rewrite existsb_exists. split.
  - intros [y [Hin E]]. apply Z.eqb_eq in E. now subst.
  - intros Hin. exists x. split; [assumption | apply Z.eqb_refl].
Qed.

Lemma int_raises (v : json) (e : exn) :
  int v = Raise e -> e = ValueError \/ e = TypeError.
Proof.
  destruct v; simpl; try discriminate; try (intros [= <-]; tauto).
  destruct (int_of_str s); [discriminate | intros [= <-]; tauto].
Qed.

Lemma candidates_spec (db : DB) (category_id : Z) (ids : list Z) (q : Question) :
  In q (candidates db category_id ids) <->
  In q (questions db) /\
  (category_id <> 0 -> q_category q = str_of_int category_id) /\
  ~ In (q_id q) ids.
Proof.
  unfold candidates. rewrite filter_In, andb_true_iff, negb_true_iff.
  rewrite <- not_true_iff_false, existsb_Zeqb.
  destruct (Z.eqb_spec category_id 0) as [-> | Hne].
  - intuition congruence.
  - rewrite String.eqb_eq. intuition congruence.
Qed.

Section QuizProperties.

Variables (db : DB) (draw : nat).
Variables (fields : list (string * json)).

Lemma play_quiz_missing_key :
  has_key "previous_questions" fields = false \/
  has_key "quiz_category" fields = false ->
  play_quiz db draw (JObj fields) = abort 400.
Proof.
  intros H. unfold play_quiz.
  destruct (truthy (JObj fields)); [| reflexivity].
  cbn [negb contains bind].
  destruct (has_key "previous_questions" fields); [| reflexivity].
  destruct (has_key "quiz_category" fields); [| reflexivity].
  destruct H; discriminate.
Qed.

Variables (previous_questions : json) (qc : list (string * json)).
Hypothesis Hprevious : lookup "previous_questions" fields = Some previous_questions.
Hypothesis Hcategory : lookup "quiz_category" fields = Some (JObj qc).

(** The handler after the two tests on the keys of the body. *)
Lemma play_quiz_category :
  play_quiz db draw (JObj fields) =
  (has_id <- contains (JObj qc) "id" ;;
   if negb has_id then abort 400
   else
     has_type <- contains (JObj qc) "type" ;;
     if negb has_type then abort 400
     else
       id <- getitem (JObj qc) "id" ;;
       category_id <- int id ;;
       if negb (existsb (Z.eqb category_id) (map cat_id (categories db) ++ [0]))
       then abort 404
       else
         unseen <- notin_ previous_questions ;;
         let selection :=
           if category_id =? 0
           then filter (fun q => unseen (q_id q)) (questions db)
           else filter (fun q => String.eqb (q_category q) (str_of_int category_id)
                                 && unseen (q_id q))
                       (questions db) in
         if is_empty selection then
           message <-
             (if negb (category_id =? 0)
              then
                type <- getitem (JObj qc) "type" ;;
                Ok ("No more questions available in the category "
                    ++ str type
                    ++ " (Select another category to continue")
              else Ok "No more questions available - Add new (question, answer) pairs to continue") ;;
           Ok (JObj [("success", JBool true);
                     ("message", JStr message);
                     ("question", JNull)])
         else
           new_question <- choice draw selection ;;
           previous_questions <-
             append previous_questions (JInt (q_id new_question)) ;;
           message <-
             (if negb (category_id =? 0)
              then
                type <- getitem (JObj qc) "type" ;;
                Ok ("New random question successfully retrieved from category "
                    ++ str type)
              else Ok "New random question successfully retrieved") ;;
           Ok (JObj [("success", JBool true);
                     ("message", JStr message);
                     ("question", format new_question);
                     ("previous_questions", previous_questions)])).
Proof.
  unfold play_quiz.
  rewrite (truthy_has_key "previous_questions") by now apply lookup_has_key with (v := previous_questions).
  cbn [negb contains getitem bind].
  rewrite (lookup_has_key _ _ _ Hprevious), (lookup_has_key _ _ _ Hcategory).
  cbn [negb]. rewrite Hcategory, Hprevious. reflexivity.
Qed.

Lemma play_quiz_missing_subkey :
  has_key "id" qc = false \/ has_key "type" qc = false ->
  play_quiz db draw (JObj fields) = abort 400.
Proof.
  intros H. rewrite play_quiz_category. cbn [contains bind].
  destruct (has_key "id" qc); [| reflexivity].
  destruct (has_key "type" qc); [| reflexivity].
  destruct H; discriminate.
Qed.

Variables (id type : json).
Hypothesis Hid : lookup "id" qc = Some id.
Hypothesis Htype : lookup "type" qc = Some type.

(** Runs the handler up to the conversion of the id. *)
Ltac pass_key_tests :=
  rewrite play_quiz_category; cbn [contains getitem bind];
  rewrite (lookup_has_key _ _ _ Hid), (lookup_has_key _ _ _ Htype), Hid;
  cbn [negb bind].

Lemma play_quiz_int_raises (e : exn) :
  int id = Raise e -> play_quiz db draw (JObj fields) = Raise e.
Proof.
  intros He. pass_key_tests. now rewrite He.
Qed.

Variable category_id : Z.
Hypothesis Hint : int id = Ok category_id.

Lemma play_quiz_unknown_category :
  category_id <> 0 -> ~ In category_id (map cat_id (categories db)) ->
  play_quiz db draw (JObj fields) = abort 404.
Proof.
  intros Hne Hnotin. pass_key_tests. rewrite Hint. cbn [bind].
  replace (existsb _ _) with false; [reflexivity |].
  symmetry. apply not_true_iff_false. rewrite existsb_Zeqb, in_app_iff.
  simpl. intros [Hin | [E | []]]; [now apply Hnotin | now apply Hne].
Qed.

Variables (items : list json) (ids : list Z).
Hypothesis Hitems : previous_questions = JArr items.
Hypothesis Hids : id_list items = Some ids.
Hypothesis Hknown : category_id = 0 \/ In category_id (map cat_id (categories db)).

(** The handler on a body that passes every test. *)
Lemma play_quiz_valid :
  play_quiz db draw (JObj fields) =
  let selection := candidates db category_id ids in
  match nth_error selection (Nat.modulo draw (List.length selection)) with
  | None =>
      Ok (JObj [("success", JBool true);
                ("message",
                 JStr (if category_id =? 0
                       then "No more questions available - Add new (question, answer) pairs to continue"
                       else "No more questions available in the category "
                            ++ str type
                            ++ " (Select another category to continue"));
                ("question", JNull)])
  | Some new_question =>
      Ok (JObj [("success", JBool true);
                ("message",
                 JStr (if category_id =? 0
                       then "New random question successfully retrieved"
                       else "New random question successfully retrieved from category "
                            ++ str type));
                ("question", format new_question);
                ("previous_questions", JArr (items ++ [JInt (q_id new_question)]))])
  end.
Proof.
  pass_key_tests. rewrite Htype, Hint. cbn [bind].
  replace (existsb _ (map cat_id (categories db) ++ [0])) with true.
  2:{ symmetry. rewrite existsb_Zeqb, in_app_iff. simpl.
      destruct Hknown as [E | Hin]; [right; left; now rewrite E | now left]. }
  cbn [negb]. rewrite Hitems, (notin_ids items ids Hids).
  cbn [bind]. cbv zeta.
  replace (if category_id =? 0 then filter _ (questions db) else filter _ (questions db))
    with (candidates db category_id ids)
    by (unfold candidates; destruct (category_id =? 0); apply filter_ext;
        intros q; now rewrite not_in_ids).
  destruct (candidates db category_id ids) as [| q0 rest] eqn:Esel.
  - cbn [is_empty List.length].
    replace (nth_error [] _) with (@None Question) by now destruct (Nat.modulo draw 0).
    now destruct (category_id =? 0).
  - cbn [is_empty]. unfold choice.
    destruct (nth_error (q0 :: rest) _) as [q |] eqn:Enth.
    + cbn [append bind]. now destruct (category_id =? 0).
    + exfalso. apply nth_error_None in Enth.
      pose proof (Nat.mod_upper_bound draw (List.length (q0 :: rest))) as Hlt.
      simpl in Hlt, Enth. lia.
Qed.

End QuizProperties.

Lemma candidates_nil (db : DB) (category_id : Z) (ids : list Z) :
  (forall q, In q (questions db) ->
             (category_id <> 0 -> q_category q = str_of_int category_id) ->
             In (q_id q) ids) ->
  candidates db category_id ids = [].
Proof.
  intros Hseen. destruct (candidates db category_id ids) as [| q rest] eqn:E;
    [reflexivity |].
  assert (Hin : In q (candidates db category_id ids)) by (rewrite E; now left).
  apply candidates_spec in Hin as [Hin [Hcat Hunseen]].
  exfalso. apply Hunseen. now apply Hseen.
Qed.

(** [POST /quizzes] on a JSON object whose quiz_category is an object
    tests in this order, and each
    failure has its own answer: an object without the key
    previous_questions or without the key quiz_category is answered with
    BadRequest (400); with both keys, a quiz_category object without the
    key id or without the key type is answered with BadRequest (400); with
    those keys, an id that [int] turns into an integer which is neither 0
    nor the id of a category is answered with NotFound (404); and when
    these tests pass and every question of the requested category (of any
    category for the id 0) has its id in the list of integers
    previous_questions, the answer is a success (200) whose question is
    null and whose message is the no-more-questions text of the case. *)
Theorem play_quiz_validation (db : DB) (draw : nat) (fields : list (string * json)) :
  let outcome := play_quiz db draw (JObj fields) in
  (has_key "previous_questions" fields = false \/
   has_key "quiz_category" fields = false ->
   respond outcome = bad_request) /\
  (forall (previous_questions : json) (qc : list (string * json)),
      lookup "previous_questions" fields = Some previous_questions ->
      lookup "quiz_category" fields = Some (JObj qc) ->
      (has_key "id" qc = false \/ has_key "type" qc = false ->
       respond outcome = bad_request) /\
      (forall (id type : json) (category_id : Z),
          lookup "id" qc = Some id ->
          lookup "type" qc = Some type ->
          int id = Ok category_id ->
          (category_id <> 0 ->
           ~ In category_id (map cat_id (categories db)) ->
           respond outcome = not_found) /\
          (forall (items : list json) (ids : list Z),
              previous_questions = JArr items ->
              id_list items = Some ids ->
              category_id = 0 \/ In category_id (map cat_id (categories db)) ->
              (forall q, In q (questions db) ->
                         (category_id <> 0 -> q_category q = str_of_int category_id) ->
                         In (q_id q) ids) ->
              outcome =
              Ok (JObj [("success", JBool true);
                        ("message",
                         JStr (if category_id =? 0
                               then "No more questions available - Add new (question, answer) pairs to continue"
                               else "No more questions available in the category "
                                    ++ str type
                                    ++ " (Select another category to continue"));
                        ("question", JNull)]) /\
              status (respond outcome) = 200))).
Proof.
  intros outcome. subst outcome. split.
  - intros H. now rewrite play_quiz_missing_key.
  - intros previous_questions qc Hprevious Hcategory. split.
    + intros H.
      now rewrite (play_quiz_missing_subkey db draw fields previous_questions qc).
    + intros id type category_id Hid Htype Hint. split.
      * intros Hne Hnotin.
        now rewrite (play_quiz_unknown_category db draw fields previous_questions qc
                       Hprevious Hcategory id type Hid Htype category_id Hint).
      * intros items ids Hitems Hids Hknown Hseen.
        rewrite (play_quiz_valid db draw fields previous_questions qc
                   Hprevious Hcategory id type Hid Htype category_id Hint
                   items ids Hitems Hids Hknown).
        cbv zeta. rewrite (candidates_nil db category_id ids Hseen).
        replace (nth_error [] _) with (@None Question)
          by now destruct (Nat.modulo draw (List.length (@nil Question))).
        split; reflexivity.
Qed.

(** C1. On a valid body of [POST /quizzes], with a list of integers
    previous_questions and a category id that [int] turns into [c], where
    [c] is 0 or the id of a category: a question is returned exactly when
    some question is a candidate; a returned question is the formatted form
    of a question of the table whose id is not in previous_questions and,
    for [c <> 0], whose category is the decimal string of [c], as the id
    and category fields of the returned object show; and the returned
    previous_questions is the submitted list with the id of that question
    appended at the end. *)
Theorem play_quiz_selection (db : DB) (draw : nat) (fields qc : list (string * json))
        (items : list json) (ids : list Z) (id type : json) (c : Z) :
  lookup "previous_questions" fields = Some (JArr items) ->
  id_list items = Some ids ->
  lookup "quiz_category" fields = Some (JObj qc) ->
  lookup "id" qc = Some id ->
  lookup "type" qc = Some type ->
  int id = Ok c ->
  c = 0 \/ In c (map cat_id (categories db)) ->
  exists response : list (string * json),
    play_quiz db draw (JObj fields) = Ok (JObj response) /\
    (lookup "question" response = Some JNull <-> candidates db c ids = []) /\
    (forall question : json,
        lookup "question" response = Some question ->
        question <> JNull ->
        exists q : Question,
          In q (questions db) /\
          question = format q /\
          get question "id" = Some (JInt (q_id q)) /\
          ~ In (q_id q) ids /\
          (c <> 0 ->
           q_category q = str_of_int c /\
           get question "category" = Some (JStr (str_of_int c))) /\
          lookup "previous_questions" response
          = Some (JArr (items ++ [JInt (q_id q)]))).
Proof.
  intros Hprevious Hids Hcategory Hid Htype Hint Hknown.
  rewrite (play_quiz_valid db draw fields (JArr items) qc
             Hprevious Hcategory id type Hid Htype c Hint
             items ids eq_refl Hids Hknown).
  cbv zeta.
  destruct (nth_error (candidates db c ids) _) as [q |] eqn:Enth.
  - eexists. split; [reflexivity |]. split.
    + split.
      * intros [= Hnull].
      * intros Hnil. rewrite Hnil in Enth. now destruct (Nat.modulo draw _).
    + intros question [= <-] _.
      apply nth_error_In in Enth. apply candidates_spec in Enth as [Hin [Hcat Hunseen]].
      exists q. split; [assumption |]. split; [reflexivity |].
      split; [reflexivity |]. split; [assumption |]. split; [| reflexivity].
      intros Hne. split; [now apply Hcat |].
      simpl. now rewrite (Hcat Hne).
  - eexists. split; [reflexivity |]. split.
    + split; [intros _ | reflexivity].
      apply nth_error_None in Enth.
      destruct (candidates db c ids) as [| q0 rest]; [reflexivity |].
      pose proof (Nat.mod_upper_bound draw (List.length (q0 :: rest))) as Hlt.
      simpl in Hlt, Enth. lia.
    + intros question [= <-] Hnull. now contradiction Hnull.
Qed.

(** C10. A body of [POST /quizzes] with the keys previous_questions and
    quiz_category, whose quiz_category has the keys id and type, and whose
    id [int] cannot turn into an integer, makes the handler raise the
    exception of [int]; no handler catches it, and the answer is
    InternalError (500), and neither BadRequest nor NotFound.  The string
    [abc] is such an id: [int] raises ValueError on it. *)
Theorem play_quiz_uncoercible_id (db : DB) (draw : nat) (fields qc : list (string * json))
        (previous_questions id type : json) (e : exn) :
  lookup "previous_questions" fields = Some previous_questions ->
  lookup "quiz_category" fields = Some (JObj qc) ->
  lookup "id" qc = Some id ->
  lookup "type" qc = Some type ->
  int id = Raise e ->
  play_quiz db draw (JObj fields) = Raise e /\
  respond (play_quiz db draw (JObj fields)) = internal_server_error /\
  status (respond (play_quiz db draw (JObj fields))) = 500 /\
  respond (play_quiz db draw (JObj fields)) <> bad_request /\
  respond (play_quiz db draw (JObj fields)) <> not_found /\
  int (JStr "abc") = Raise ValueError.
Proof.
  intros Hprevious Hcategory Hid Htype He.
  rewrite (play_quiz_int_raises db draw fields previous_questions qc
             Hprevious Hcategory id type Hid Htype e He).
  destruct (int_raises id e He) as [-> | ->];
    repeat split; solve [reflexivity | discriminate].
Qed.

(** ** Exclusion lists that hold other values than integers *)

Lemma not_in_null (literals : list (option Z)) (id : Z) :
  In None literals -> not_in literals id = false.
Proof.
  intros Hin. unfold not_in.
  replace (existsb (fun x : option Z => match x with Some _ => false | None => true end)
                   literals) with true; [apply andb_false_r |].
  symmetry. apply existsb_exists. now exists None.
Qed.

(** A string that holds the digits of an id excludes that id, and a null
    in the list excludes every question; a string that is not a number,
    a boolean, and a value that is no list are errors of the query, which
    no handler catches; an object is taken by the query and fails at
    [append] when a question is drawn. *)
Lemma play_quiz_other_exclusions :
  notin_ (JArr [JStr "1"; JStr " 2 "; JInt 3]) = Ok (not_in [Some 1; Some 2; Some 3]) /\
  play_quiz Samples.db 0 (Samples.quiz [JStr "1"] (JStr "1")) =
  Ok (JObj [("success", JBool true);
            ("message",
             JStr "No more questions available in the category Science (Select another category to continue");
            ("question", JNull)]) /\
  play_quiz Samples.db 0 (Samples.quiz [JNull] (JInt 0)) =
  Ok (JObj [("success", JBool true);
            ("message",
             JStr "No more questions available - Add new (question, answer) pairs to continue");
            ("question", JNull)]) /\
  play_quiz Samples.db 0 (Samples.quiz [JStr "abc"] (JInt 0)) = Raise DataError /\
  play_quiz Samples.db 0 (Samples.quiz [JBool true] (JInt 0)) = Raise ProgrammingError /\
  play_quiz Samples.db 0
    (JObj [("previous_questions", JNull);
           ("quiz_category", JObj [("type", JStr "Science"); ("id", JInt 0)])])
  = Raise ArgumentError /\
  play_quiz Samples.db 0
    (JObj [("previous_questions", JObj [("1", JNull)]);
           ("quiz_category", JObj [("type", JStr "Science"); ("id", JInt 0)])])
  = Raise AttributeError.
Proof.
  repeat match goal with |- _ /\ _ => split end; vm_compute; reflexivity.
Qed.

(** ** Bodies that are not objects

    The tests on keys are written with [in], which is defined on lists and
    strings as well and raises TypeError on the other values; a subscript
    with a key raises TypeError on everything but an object. *)

(** C3. The test on the keys id and type of quiz_category does not test
    that quiz_category is an object, which the comment above it announces
    ("check that the category field is a dict with id and type"): a
    quiz_category that is null, a boolean or a number has no key id, and
    the handler does not answer BadRequest (400): the test itself raises
    TypeError, which no handler catches, and the answer is the envelope
    of status 500.  So do a list and a string that hold [id] and [type],
    at the subscript that follows the test, and a body that is a number
    or [true], at the test on the keys of the body. *)
Theorem play_quiz_category_not_a_dict (db : DB) (draw : nat)
        (previous_questions : json) :
  let body category :=
    JObj [("previous_questions", previous_questions);
          ("quiz_category", category)] in
  contains JNull "id" = Raise TypeError /\
  play_quiz db draw (body JNull) = Raise TypeError /\
  respond (play_quiz db draw (body JNull)) = internal_server_error /\
  status (respond (play_quiz db draw (body JNull))) = 500 /\
  respond (play_quiz db draw (body JNull)) <> bad_request /\
  (forall b : bool,
      respond (play_quiz db draw (body (JBool b))) = internal_server_error) /\
  (forall n : Z,
      respond (play_quiz db draw (body (JInt n))) = internal_server_error) /\
  respond (play_quiz db draw (body (JArr [JStr "id"; JStr "type"])))
  = internal_server_error /\
  respond (play_quiz db draw (body (JStr "id type"))) = internal_server_error /\
  respond (play_quiz db draw (JInt 5)) = internal_server_error /\
  respond (play_quiz db draw (JBool true)) = internal_server_error.
Proof.
  intros body. subst body.
  repeat match goal with |- _ /\ _ => split end;
    try reflexivity; try discriminate.
Qed.


(** ** The properties on the sample data *)

Lemma play_quiz_selection_witness :
  exists response : list (string * json),
    play_quiz Samples.db 7 (Samples.quiz [JInt 2] (JStr "3")) = Ok (JObj response) /\
    (lookup "question" response = Some JNull <-> candidates Samples.db 3 [2] = []) /\
    (forall question : json,
        lookup "question" response = Some question ->
        question <> JNull ->
        exists q : Question,
          In q (questions Samples.db) /\
          question = format q /\
          get question "id" = Some (JInt (q_id q)) /\
          ~ In (q_id q) [2] /\
          (3 <> 0 ->
           q_category q = str_of_int 3 /\
           get question "category" = Some (JStr (str_of_int 3))) /\
          lookup "previous_questions" response
          = Some (JArr ([JInt 2] ++ [JInt (q_id q)]))).
Proof.
  apply (play_quiz_selection Samples.db 7 _ [("type", JStr "Science"); ("id", JStr "3")]
           [JInt 2] [2] (JStr "3") (JStr "Science") 3);
    try reflexivity.
  right. simpl. tauto.
Defined.

Lemma paginate_page_witness :
  page_of [("page", "2")] = 2 /\
  paginate format [("page", "2")] (Samples.numbered 25)
  = firstn 10 (skipn 10 (map format (Samples.numbered 25))) /\
  (Z.of_nat (List.length (Samples.numbered 5)) <= (2 - 1) * 10 ->
   paginate format [("page", "2")] (Samples.numbered 5) = []).
Proof.
  split; [reflexivity |]. split.
  - apply (paginate_page format [("page", "2")] (Samples.numbered 25) 2);
      [reflexivity | lia].
  - apply (paginate_page format [("page", "2")] (Samples.numbered 5) 2);
      [reflexivity | lia].
Defined.

Lemma play_quiz_validation_witness :
  respond (play_quiz Samples.db 0 (Samples.quiz [] (JInt 10))) = not_found /\
  respond (play_quiz Samples.db 0 (JObj [("previous_questions", JArr [])])) = bad_request /\
  play_quiz Samples.db 0 (Samples.quiz [JInt 1] (JStr "1")) =
  Ok (JObj [("success", JBool true);
            ("message",
             JStr "No more questions available in the category Science (Select another category to continue");
            ("question", JNull)]).
Proof.
  split; [| split].
  - apply (play_quiz_validation Samples.db 0
             [("previous_questions", JArr []);
              ("quiz_category", JObj [("type", JStr "Science"); ("id", JInt 10)])])
      with (previous_questions := JArr [])
           (qc := [("type", JStr "Science"); ("id", JInt 10)])
           (id := JInt 10) (type := JStr "Science") (category_id := 10);
      try reflexivity.
    + lia.
    + simpl. intuition lia.
  - apply (play_quiz_validation Samples.db 0 [("previous_questions", JArr [])]).
    right. reflexivity.
  - apply (play_quiz_validation Samples.db 0
             [("previous_questions", JArr [JInt 1]);
              ("quiz_category", JObj [("type", JStr "Science"); ("id", JStr "1")])])
      with (previous_questions := JArr [JInt 1])
           (qc := [("type", JStr "Science"); ("id", JStr "1")])
           (id := JStr "1") (type := JStr "Science") (category_id := 1)
           (items := [JInt 1]) (ids := [1]);
      try reflexivity.
    + right. simpl. tauto.
    + simpl. intros q [<- | [<- | [<- | [<- | []]]]] Hcat;
        try (now left); specialize (Hcat ltac:(lia)); discriminate.
Defined.

Lemma listings_not_found_witness :
  respond (get_categories (empty [])) = not_found /\
  respond (get_questions (empty Samples.categories) []) = not_found /\
  status (respond (get_questions Samples.db [("page", "7")])) = 200 /\
  paginate format [("page", "7")] (questions Samples.db) = [].
Proof.
  split; [| split; [| split]].
  - apply (listings_not_found (empty []) []). reflexivity.
  - apply (listings_not_found (empty Samples.categories) []). reflexivity.
  - apply (listings_not_found Samples.db [("page", "7")]). discriminate.
  - apply (listings_not_found Samples.db [("page", "7")]).
    + discriminate.
    + vm_compute. discriminate.
    + vm_compute. discriminate.
Defined.



Lemma samples_wf : wf Samples.db.
Proof.
  split.
  - simpl. repeat constructor; simpl; intuition discriminate.
  - simpl. intros q [<- | [<- | [<- | [<- | []]]]]; reflexivity.
Defined.

Lemma create_then_delete_witness :
  exists (id : Z) (db2 : DB),
    JObj [("success", JBool true); ("created", JInt 5); ("total_questions", JInt 5)] =
    JObj [("success", JBool true);
          ("created", JInt id);
          ("total_questions", JInt (Z.of_nat (S (List.length (questions Samples.db)))))] /\
    delete_question
      (fst (create_question Samples.column_values Samples.db Samples.new_question)) id =
    (db2, Ok (JObj [("success", JBool true);
                    ("deleted", JInt id);
                    ("total_questions",
                     JInt (Z.of_nat (List.length (questions Samples.db))))])) /\
    questions db2 = questions Samples.db /\
    respond (get_question db2 id) = not_found.
Proof.
  apply (create_then_delete Samples.column_values Samples.db
           (fst (create_question Samples.column_values Samples.db Samples.new_question))
           Samples.new_question).
  - exact samples_wf.
  - reflexivity.
Defined.

Lemma get_question_found_or_not_witness :
  respond (get_question Samples.db 100) = not_found /\
  exists (question : Question) (categories_map : json),
    In question (questions Samples.db) /\ q_id question = 2 /\
    get_question Samples.db 2 =
    Ok (JObj [("success", JBool true);
              ("questions", JArr [format question]);
              ("current_category", JStr (q_category question));
              ("total_questions", JInt (Z.of_nat (List.length (questions Samples.db))));
              ("categories", categories_map)]) /\
    get categories_map "3" = Some (JStr "Geography") /\
    get categories_map "7" = None.
Proof.
  split.
  - apply (get_question_found_or_not Samples.db 100).
    simpl. intros q [<- | [<- | [<- | [<- | []]]]]; discriminate.
  - destruct (get_question_found_or_not Samples.db 2) as [_ H].
    destruct H as [question [categories_map [Hin [Hid [Hanswer [_ [Hmap _]]]]]]].
    + exists (mkQuestion 2 "Where is the HQ of OpenAI?" "San Francisco" "3" 3).
      split; [simpl; tauto | reflexivity].
    + exists question, categories_map.
      split; [exact Hin |]. split; [exact Hid |]. split; [exact Hanswer |].
      split; [exact (Hmap "3"%string) | exact (Hmap "7"%string)].
Defined.

Lemma paginate_nonpositive_page_witness :
  paginate format [("page", "-1")] (Samples.numbered 30)
  = firstn 10 (skipn 10 (map format (Samples.numbered 30))) /\
  paginate format [("page", "0")] (Samples.numbered 30) = [] /\
  paginate format [("page", "-2")] (Samples.numbered 30) <> [].
Proof.
  split; [| split].
  - destruct (paginate_nonpositive_page format [("page", "-1")] (Samples.numbered 30) (-1))
      as [_ [_ Hexample]]; [reflexivity | lia |].
    apply Hexample; reflexivity.
  - destruct (paginate_nonpositive_page format [("page", "0")] (Samples.numbered 30) 0)
      as [Hzero _]; [reflexivity | lia |].
    apply Hzero. reflexivity.
  - destruct (paginate_nonpositive_page format [("page", "-2")] (Samples.numbered 30) (-2))
      as [_ [Hnegative _]]; [reflexivity | lia |].
    apply Hnegative; [lia | vm_compute; reflexivity].
Defined.

Lemma play_quiz_uncoercible_id_witness :
  play_quiz Samples.db 0 (Samples.quiz [] (JStr "abc")) = Raise ValueError /\
  respond (play_quiz Samples.db 0 (Samples.quiz [] (JStr "abc"))) = internal_server_error /\
  status (respond (play_quiz Samples.db 0 (Samples.quiz [] (JStr "abc")))) = 500 /\
  respond (play_quiz Samples.db 0 (Samples.quiz [] (JStr "abc"))) <> bad_request /\
  respond (play_quiz Samples.db 0 (Samples.quiz [] (JStr "abc"))) <> not_found /\
  int (JStr "abc") = Raise ValueError.
Proof.
  apply (play_quiz_uncoercible_id Samples.db 0
           [("previous_questions", JArr []);
            ("quiz_category", JObj [("type", JStr "Science"); ("id", JStr "abc")])]
           [("type", JStr "Science"); ("id", JStr "abc")]
           (JArr []) (JStr "abc") (JStr "Science") ValueError);
    reflexivity.
Defined.

(** * Further properties *)

(** ** Pages *)

Section MorePages.

Context {A : Type}.
Variable format : A -> json.

(** The two bounds of the slice of a page are ten apart, and so are at
    most ten apart after clipping. *)
Lemma slice_of_page (l : list json) (page : Z) :
  exists lo k : nat,
    slice l ((page - 1) * 10) ((page - 1) * 10 + 10) = firstn k (skipn lo l) /\
    (k <= 10)%nat.
Proof.
  unfold slice, slice_bound. set (n := Z.of_nat (List.length l)).
  eexists _, _. split; [reflexivity |].
  destruct (Z.ltb_spec ((page - 1) * 10) 0);
    destruct (Z.ltb_spec ((page - 1) * 10 + 10) 0); lia.
Qed.

(** X1. Whatever the [page] parameter holds (any integer, or text that is
    not a number), the page that [paginate] returns is a run of at most
    [QUESTIONS_PER_PAGE] = 10 consecutive items of the formatted
    collection: nothing is invented, reordered or repeated. *)
Theorem paginate_run (request_args : args) (collection : list A) :
  exists before after : list json,
    map format collection
    = (before ++ paginate format request_args collection ++ after)%list /\
    Z.of_nat (List.length (paginate format request_args collection)) <= QUESTIONS_PER_PAGE.
Proof.
  rewrite paginate_slice.
  destruct (slice_of_page (map format collection) (page_of request_args))
    as [lo [k [-> Hk]]].
  exists (firstn lo (map format collection)),
         (skipn k (skipn lo (map format collection))).
  split.
  - now rewrite firstn_skipn, firstn_skipn.
  - rewrite length_firstn. unfold QUESTIONS_PER_PAGE. lia.
Qed.

(** X2. A [page] parameter that [int] cannot convert (ValueError) is
    treated as if it were absent: the first page is returned and no error
    is raised. *)
Theorem paginate_unreadable_page (request_args : args) (collection : list A) (s : string) :
  args_lookup "page" request_args = Some s ->
  int_of_str s = None ->
  paginate format request_args collection = firstn 10 (map format collection) /\
  paginate format request_args collection = paginate format [] collection.
Proof.
  intros Hs Hint.
  assert (Hp : page_of request_args = 1).
  { unfold page_of, args_get_int. now rewrite Hs, Hint. }
  split.
  - now rewrite (paginate_from_start format request_args collection 1 Hp) by lia.
  - rewrite (paginate_from_start format request_args collection 1 Hp) by lia.
    now rewrite (paginate_from_start format [] collection 1 eq_refl) by lia.
Qed.

Lemma firstn_add (j k : nat) (l : list json) :
  firstn (j + k) l = (firstn j l ++ firstn k (skipn j l))%list.
Proof.
  revert l. induction j as [| j IH]; intros l; [reflexivity |].
  destruct l as [| x l]; simpl.
  - now rewrite firstn_nil.
  - now rewrite IH.
Qed.

(** X3. The pages 1, 2, ..., m put one after the other are the first
    [10 * m] formatted items: the pages do not overlap and leave no gap,
    and once [10 * m] reaches the size of the collection they are the
    whole collection. *)
Theorem paginate_pages_cover (request : nat -> args) (collection : list A) (m : nat) :
  (forall k, (k < m)%nat -> page_of (request k) = Z.of_nat (S k)) ->
  List.concat (map (fun k => paginate format (request k) collection) (seq 0 m))
  = firstn (10 * m) (map format collection) /\
  ((List.length collection <= 10 * m)%nat ->
   List.concat (map (fun k => paginate format (request k) collection) (seq 0 m))
   = map format collection).
Proof.
  intros Hpages.
  assert (E : List.concat (map (fun k => paginate format (request k) collection) (seq 0 m))
              = firstn (10 * m) (map format collection)).
  { induction m as [| m IH]; [reflexivity |].
    rewrite seq_S, map_app, concat_app, IH by (intros k Hk; apply Hpages; lia).
    cbn [map List.concat Nat.add]. rewrite app_nil_r.
    rewrite (paginate_from_start format (request m) collection (Z.of_nat (S m)))
      by (try apply Hpages; lia).
    replace (Z.to_nat ((Z.of_nat (S m) - 1) * 10)) with (10 * m)%nat by lia.
    replace (10 * S m)%nat with (10 * m + 10)%nat by lia.
    symmetry. apply firstn_add. }
  split; [exact E |].
  intros Hlen. rewrite E. apply firstn_all2. now rewrite length_map.
Qed.

End MorePages.

(** ** The questions of a category *)

Lemma in_firstn {A : Type} (k : nat) (l : list A) (x : A) :
  In x (firstn k l) -> In x l.
Proof.
  intros H. rewrite <- (firstn_skipn k l). apply in_or_app. now left.
Qed.

Lemma in_skipn {A : Type} (k : nat) (l : list A) (x : A) :
  In x (skipn k l) -> In x l.
Proof.
  intros H. rewrite <- (firstn_skipn k l). apply in_or_app. now right.
Qed.

Lemma paginate_items {A : Type} (format : A -> json) (request_args : args)
      (collection : list A) (item : json) :
  In item (paginate format request_args collection) ->
  exists x, In x collection /\ item = format x.
Proof.
  rewrite paginate_slice. unfold slice. intros Hin.
  apply in_firstn, in_skipn in Hin.
  apply in_map_iff in Hin as [x [<- Hx]]. now exists x.
Qed.

(** X4. [GET /categories/{id}/questions] answers NotFound (404) exactly
    when no category has the id; the id 0, which the quiz takes for every
    category, has no special meaning here.  For the id of a category the
    answer is a success whose [total_questions] counts the questions whose
    category is the decimal string of the id, whose page holds only such
    questions, and whose [current_category] is the id; a category without
    questions is a success with an empty list and a total of 0. *)
Theorem select_questions_by_category_outcomes (db : DB) (request_args : args)
        (category_id : Z) :
  let outcome := select_questions_by_category db request_args category_id in
  let selection :=
    filter (fun q => String.eqb (q_category q) (str_of_int category_id)) (questions db) in
  (respond outcome = not_found <-> ~ In category_id (map cat_id (categories db))) /\
  (In category_id (map cat_id (categories db)) ->
   outcome = Ok (JObj [("success", JBool true);
                       ("questions", JArr (paginate format request_args selection));
                       ("current_category", JInt category_id);
                       ("total_questions", JInt (Z.of_nat (List.length selection)))]) /\
   (forall item, In item (paginate format request_args selection) ->
                 exists q, In q (questions db) /\
                           q_category q = str_of_int category_id /\
                           item = format q) /\
   ((forall q, In q (questions db) -> q_category q <> str_of_int category_id) ->
    outcome = Ok (JObj [("success", JBool true);
                        ("questions", JArr []);
                        ("current_category", JInt category_id);
                        ("total_questions", JInt 0)]))).
Proof.
  intros outcome selection. subst outcome. unfold select_questions_by_category.
  fold selection.
  destruct (existsb (Z.eqb category_id) (map cat_id (categories db))) eqn:E.
  - apply existsb_Zeqb in E. cbn [negb]. split.
    + split; [discriminate | intros H; now contradiction H].
    + intros _. split; [reflexivity |]. split.
      * intros item Hin. apply paginate_items in Hin as [q [Hq ->]].
        apply filter_In in Hq as [Hq Hcat]. apply String.eqb_eq in Hcat.
        now exists q.
      * intros Hnone.
        assert (Hsel : selection = []).
        { subst selection. induction (questions db) as [| q rest IH]; [reflexivity |].
          cbn [filter].
          destruct (String.eqb_spec (q_category q) (str_of_int category_id)) as [Hc | _].
          - exfalso. apply (Hnone q); [now left | exact Hc].
          - apply IH. intros q' Hin. apply Hnone. now right. }
        rewrite Hsel, paginate_nil. reflexivity.
  - cbn [negb]. split.
    + split; [| reflexivity].
      intros _ Hin. apply existsb_Zeqb in Hin. congruence.
    + intros Hin. apply existsb_Zeqb in Hin. congruence.
Qed.

(** ** Writes to the question table *)

Lemma find_filter_other (id id' : Z) (rows : list Question) :
  id' <> id ->
  find (fun q => q_id q =? id') (filter (fun r => negb (q_id r =? id)) rows)
  = find (fun q => q_id q =? id') rows.
Proof.
  intros Hne. induction rows as [| r rest IH]; [reflexivity |].
  cbn [filter find].
  destruct (Z.eqb_spec (q_id r) id) as [E | _]; cbn [negb].
  - destruct (Z.eqb_spec (q_id r) id') as [E' | _]; [congruence | exact IH].
  - cbn [find]. now rewrite IH.
Qed.

Lemma find_app_other (id' : Z) (rows : list Question) (row : Question) :
  id' <> q_id row ->
  find (fun q => q_id q =? id') (rows ++ [row]) = find (fun q => q_id q =? id') rows.
Proof.
  intros Hne. induction rows as [| r rest IH]; cbn [app find].
  - destruct (Z.eqb_spec (q_id row) id'); [congruence | reflexivity].
  - now rewrite IH.
Qed.

Lemma find_unique (rows : list Question) (q : Question) :
  NoDup (map q_id rows) -> In q rows ->
  find (fun r => q_id r =? q_id q) rows = Some q.
Proof.
  induction rows as [| r rest IH]; intros Hnodup Hin; [contradiction |].
  simpl in Hnodup. inversion Hnodup as [| ? ? Hnotin Hrest]; subst.
  cbn [find]. destruct Hin as [-> | Hin].
  - now rewrite Z.eqb_refl.
  - destruct (Z.eqb_spec (q_id r) (q_id q)) as [E | _]; [| now apply IH].
    exfalso. apply Hnotin. rewrite E. now apply in_map.
Qed.

Lemma length_filter_unique (rows : list Question) (q : Question) :
  NoDup (map q_id rows) -> In q rows ->
  S (List.length (filter (fun r => negb (q_id r =? q_id q)) rows)) = List.length rows.
Proof.
  induction rows as [| r rest IH]; intros Hnodup Hin; [contradiction |].
  simpl in Hnodup. inversion Hnodup as [| ? ? Hnotin Hrest]; subst.
  cbn [filter]. destruct Hin as [-> | Hin].
  - rewrite Z.eqb_refl. cbn [negb List.length]. f_equal.
    f_equal. apply filter_other_ids.
    intros r Hr E. apply Hnotin. rewrite <- E. now apply in_map.
  - destruct (Z.eqb_spec (q_id r) (q_id q)) as [E | _].
    + exfalso. apply Hnotin. rewrite E. now apply in_map.
    + cbn [negb List.length]. f_equal. now apply IH.
Qed.

(** X5. [DELETE /questions/{id}] with an id that no question has answers
    NotFound (404) and leaves the tables as they are.  With the id of a
    question, in a state in which ids are unique, it answers with the id
    and a count that is one less than before, the categories are
    untouched, every other question is still found under its id, the
    deleted id is no longer found, and a second delete of the same id
    answers NotFound. *)
Theorem delete_question_outcomes (db : DB) (question_id : Z) :
  let db' := fst (delete_question db question_id) in
  let outcome := snd (delete_question db question_id) in
  ((forall q, In q (questions db) -> q_id q <> question_id) ->
   db' = db /\ respond outcome = not_found) /\
  (wf db ->
   (exists q, In q (questions db) /\ q_id q = question_id) ->
   outcome = Ok (JObj [("success", JBool true);
                       ("deleted", JInt question_id);
                       ("total_questions", JInt (Z.of_nat (List.length (questions db'))))]) /\
   S (List.length (questions db')) = List.length (questions db) /\
   categories db' = categories db /\
   (forall id', id' <> question_id -> session_get db' id' = session_get db id') /\
   respond (get_question db' question_id) = not_found /\
   respond (snd (delete_question db' question_id)) = not_found /\
   wf db').
Proof.
  intros db' outcome. subst db' outcome. unfold delete_question. split.
  - intros Hnone. apply session_get_none in Hnone. rewrite Hnone. now split.
  - intros Hwf [q [Hin Hid]].
    destruct (session_get db question_id) as [question |] eqn:Eget.
    2:{ exfalso. apply (proj1 (session_get_none db question_id) Eget q Hin Hid). }
    apply session_get_some in Eget as [Hin' Hid'].
    cbn [fst snd].
    assert (Hgone : session_get (delete db question) question_id = None).
    { apply session_get_none. unfold delete. cbn [questions].
      intros r Hr E. apply filter_In in Hr as [_ Hr].
      rewrite E, Hid', Z.eqb_refl in Hr. discriminate. }
    split; [reflexivity |]. split.
    { unfold delete. cbn [questions].
      apply length_filter_unique; [apply Hwf | assumption]. }
    split; [reflexivity |]. split.
    { intros id' Hne. unfold session_get, delete. cbn [questions].
      apply find_filter_other. now rewrite Hid'. }
    split.
    { unfold get_question. now rewrite Hgone. }
    split.
    { now rewrite Hgone. }
    now apply delete_wf.
Qed.

Section MoreCreation.

Variable column_values : json -> json -> json -> json ->
                         option (string * string * string * Z).

(** X6. After a successful [POST /questions], in a state in which the
    primary key holds, the question table is the table before with one
    row added at its end; [GET /questions/{created id}] answers with that
    row, formatted, and the new count; every question that was there is
    still found under its id; the categories are untouched; and the
    primary key still holds. *)
Theorem create_then_get (db db1 : DB) (body response : json) :
  wf db ->
  create_question column_values db body = (db1, Ok response) ->
  exists row : Question,
    get response "created" = Some (JInt (q_id row)) /\
    questions db1 = (questions db ++ [row])%list /\
    categories db1 = categories db /\
    get_question db1 (q_id row) =
    Ok (JObj [("success", JBool true);
              ("questions", JArr [format row]);
              ("current_category", JStr (q_category row));
              ("total_questions", JInt (Z.of_nat (S (List.length (questions db)))));
              ("categories", categories_dict (categories db))]) /\
    (forall q, In q (questions db) -> session_get db1 (q_id q) = session_get db (q_id q)) /\
    wf db1.
Proof.
  intros Hwf Hcreate.
  pose proof (wf_seq_fresh db Hwf) as Hfresh.
  apply create_question_ok in Hcreate as [qu [an [ca [di [-> ->]]]]].
  set (row := mkQuestion (questions_id_seq db) qu an ca di).
  exists row. split; [reflexivity |]. split; [reflexivity |]. split; [reflexivity |].
  assert (Hwf1 : wf (mkDB (categories db) (questions db ++ [row])
                          (questions_id_seq db + 1))) by now apply wf_add_row.
  split; [| split; [| exact Hwf1]].
  - unfold get_question, session_get. cbn [questions categories].
    rewrite find_unique; [| apply Hwf1 | apply in_app_iff; right; now left].
    unfold len. rewrite length_app, Nat.add_1_r. reflexivity.
  - intros q Hin. unfold session_get. cbn [questions].
    apply find_app_other. now apply Hfresh.
Qed.

(** X7. A write that is not answered with success changes nothing:
    whatever the body, [POST /questions] answered with another status than
    200 leaves the state as it was, and so does [DELETE /questions/{id}].
    And no [POST /questions] touches the categories or the rows that were
    there: the question table afterwards is the table before, followed by
    at most one row. *)
Theorem failed_write_keeps_state (db : DB) (body : json) (question_id : Z) :
  (status (respond (snd (create_question column_values db body))) <> 200 ->
   fst (create_question column_values db body) = db) /\
  (status (respond (snd (delete_question db question_id))) <> 200 ->
   fst (delete_question db question_id) = db) /\
  categories (fst (create_question column_values db body)) = categories db /\
  exists added : list Question,
    questions (fst (create_question column_values db body))
    = (questions db ++ added)%list /\
    (List.length added <= 1)%nat.
Proof.
  destruct (create_question column_values db body) as [db1 [response | e]] eqn:E.
  - apply create_question_ok in E as [qu [an [ca [di [-> ->]]]]].
    cbn [fst snd]. split; [intros H; now contradiction H |].
    split.
    + unfold delete_question. destruct (session_get db question_id); cbn [fst snd].
      * intros H. now contradiction H.
      * reflexivity.
    + split; [reflexivity |]. eexists. split; [reflexivity |]. simpl. lia.
  - assert (Hdb : db1 = db).
    { revert E. unfold create_question.
      destruct (negb (truthy body)); [now intros [= <- _] |].
      destruct (issubset required_fields body) as [[] |]; try now intros [= <- _].
      destruct (create_question_try column_values db body) as [[db' r] |];
        [discriminate | now intros [= <- _]]. }
    subst db1. cbn [fst snd]. split; [reflexivity |]. split.
    + unfold delete_question. destruct (session_get db question_id); cbn [fst snd].
      * intros H. now contradiction H.
      * reflexivity.
    + split; [reflexivity |]. exists []. split; [now rewrite app_nil_r | simpl; lia].
Qed.

End MoreCreation.

(** X8. In a state in which ids are unique, every question of the table,
    and so every question that a page of [GET /questions] lists, is the
    one that [GET /questions/{its id}] answers with, together with the
    same count and the same category map as the listing. *)
Theorem listed_question_found (db : DB) (request_args : args) (item : json) :
  wf db ->
  In item (paginate format request_args (questions db)) ->
  exists q : Question,
    In q (questions db) /\ item = format q /\
    get_question db (q_id q) =
    Ok (JObj [("success", JBool true);
              ("questions", JArr [item]);
              ("current_category", JStr (q_category q));
              ("total_questions", JInt (Z.of_nat (List.length (questions db))));
              ("categories", categories_dict (categories db))]).
Proof.
  intros [Hnodup _] Hin. apply paginate_items in Hin as [q [Hq ->]].
  exists q. split; [assumption |]. split; [reflexivity |].
  unfold get_question, session_get. now rewrite find_unique.
Qed.

(** ** The statuses and the envelope of the answers *)

Create HintDb raises.

Lemma contains_raises (container : json) (key : string) (e : exn) :
  contains container key = Raise e -> nonhttp e.
Proof. destruct container; simpl; try discriminate; now intros [= <-]. Qed.

Lemma getitem_raises (container : json) (key : string) (e : exn) :
  getitem container key = Raise e -> nonhttp e.
Proof.
  destruct container; simpl; try (now intros [= <-]).
  destruct (lookup key fields); [discriminate | now intros [= <-]].
Qed.

Lemma int_nonhttp (v : json) (e : exn) : int v = Raise e -> nonhttp e.
Proof. intros H. now destruct (int_raises v e H) as [-> | ->]. Qed.

Lemma sql_literals_raises (items : list json) (e : exn) :
  sql_literals items = Raise e -> nonhttp e.
Proof.
  induction items as [| v rest IH]; [discriminate |].
  cbn [sql_literals].
  destruct (sql_literal v) as [x | e'] eqn:Ev; cbn [bind].
  - destruct (sql_literals rest) as [xs | e'']; cbn [bind]; [discriminate |].
    intros [= <-]. now apply IH.
  - intros [= <-]. destruct v; simpl in Ev; try discriminate;
      try (injection Ev as <-; exact I).
    destruct (pg_int4 s); [discriminate | injection Ev as <-; exact I].
Qed.

Lemma notin_raises (previous_questions : json) (e : exn) :
  notin_ previous_questions = Raise e -> nonhttp e.
Proof.
  destruct previous_questions; cbn [notin_]; try (now intros [= <-]).
  - destruct (sql_literals items) as [xs | e'] eqn:E; cbn [bind]; [discriminate |].
    intros [= <-]. now apply (sql_literals_raises items).
  - destruct (sql_literals _) as [xs | e'] eqn:E; cbn [bind]; [discriminate |].
    intros [= <-]. now apply (sql_literals_raises _ _ E).
Qed.

Lemma append_raises (previous_questions x : json) (e : exn) :
  Flaskr.append previous_questions x = Raise e -> nonhttp e.
Proof. destruct previous_questions; simpl; try discriminate; now intros [= <-]. Qed.

Lemma choice_raises {A : Type} (draw : nat) (selection : list A) (e : exn) :
  choice draw selection = Raise e -> nonhttp e.
Proof.
  unfold choice. destruct (nth_error _ _); [discriminate | now intros [= <-]].
Qed.

Lemma issubset_raises (fields : list string) (body : json) (e : exn) :
  issubset fields body = Raise e -> nonhttp e.
Proof.
  destruct body; simpl; try discriminate; try (now intros [= <-]).
  destruct (forallb hashable items); [discriminate | now intros [= <-]].
Qed.

Lemma bind_ok_raises {A B : Type} (m : result A) (f : A -> B) (e : exn) :
  bind m (fun a => Ok (f a)) = Raise e -> m = Raise e.
Proof. destruct m; simpl; [discriminate | now intros [= ->]]. Qed.

#[local] Hint Resolve contains_raises getitem_raises int_nonhttp notin_raises
  append_raises choice_raises issubset_raises : raises.

Lemma answers_ok (statuses : list Z) (body : json) :
  In 200 statuses -> get body "success" = Some (JBool true) ->
  answers statuses (Ok body).
Proof.
  intros Hin Hsuccess. unfold answers. cbn [respond status payload].
  split; [assumption |]. split; [assumption |]. intros H. now contradiction H.
Qed.

Lemma answers_abort (statuses : list Z) (code : Z) :
  In code statuses -> In code [400; 404; 422] ->
  answers statuses (abort code).
Proof.
  intros Hin [<- | [<- | [<- | []]]]; (split; [exact Hin | split; reflexivity]).
Qed.

Lemma answers_raise (statuses : list Z) (e : exn) :
  nonhttp e -> In 500 statuses -> answers statuses (Raise e).
Proof.
  intros Hnon Hin.
  assert (E : respond (Raise e) = internal_server_error)
    by (destruct e; [contradiction | reflexivity ..]).
  unfold answers. rewrite E. split; [exact Hin | split; reflexivity].
Qed.

(** One step of a handler: a test, a call that can raise, a return. *)
Ltac answer_step :=
  first
    [ progress cbn [bind getitem contains]
    | progress cbv zeta
    | apply answers_ok; [simpl; tauto | reflexivity]
    | apply answers_abort; simpl; tauto
    | apply answers_raise; [exact I | simpl; tauto]
    | match goal with
      | |- answers _ (if ?c then _ else _) => destruct c
      | |- answers _ (bind (if ?c then _ else _) _) => destruct c
      | |- answers _ (bind ?m _) =>
          let E := fresh "E" in
          destruct m eqn:E; cbn [bind];
          [| apply answers_raise;
             [try apply bind_ok_raises in E; solve [eauto with raises] | simpl; tauto]]
      | |- answers _ (match ?m with Some _ => _ | None => _ end) => destruct m
      end ].

Section Answers.

Variable column_values : json -> json -> json -> json ->
                         option (string * string * string * Z).
Variable esc : bool.
Variable nul : bool.

Lemma create_question_answers (db : DB) (body : json) :
  answers [200; 400; 422; 500] (snd (create_question column_values db body)).
Proof.
  unfold create_question.
  destruct (negb (truthy body)); cbn [snd]; [repeat answer_step |].
  destruct (issubset required_fields body) as [[] | e] eqn:E; cbn [snd].
  - destruct (create_question_try column_values db body) as [[db' response] | e] eqn:Etry;
      cbn [snd]; [| repeat answer_step].
    apply answers_ok; [simpl; tauto |].
    revert Etry. unfold create_question_try.
    repeat (match goal with
            | |- bind ?m _ = _ -> _ => destruct m; cbn [bind]; [| discriminate]
            end).
    now intros [= _ <-].
  - repeat answer_step.
  - apply answers_raise; [eauto with raises | simpl; tauto].
Qed.

(** X9. Every endpoint answers with the envelope of the application and
    with a status of its own short list, whatever the state, the query
    string and the body (any JSON value): the [success] field is true
    exactly for status 200, an error carries its status in [error].  The
    listings, the lookup and the delete answer 200 or 404 and never 500;
    the search answers 200, 400 or 500 and never 404; the creation answers
    200, 400, 422 or 500 and never 404; the quiz answers 200, 400, 404 or
    500 and never 422. *)
Theorem endpoints_answer (db : DB) (request_args : args) (body : json)
        (id : Z) (draw : nat) :
  answers [200; 404] (get_categories db) /\
  answers [200; 404] (get_questions db request_args) /\
  answers [200; 404] (get_question db id) /\
  answers [200; 404] (snd (delete_question db id)) /\
  answers [200; 404] (select_questions_by_category db request_args id) /\
  answers [200; 400; 422; 500] (snd (create_question column_values db body)) /\
  answers [200; 400; 500] (search_questions esc nul db request_args body) /\
  answers [200; 400; 404; 500] (play_quiz db draw body).
Proof.
  repeat match goal with |- _ /\ _ => split end.
  - unfold get_categories. repeat answer_step.
  - unfold get_questions. repeat answer_step.
  - unfold get_question. repeat answer_step.
  - unfold delete_question. destruct (session_get db id); cbn [snd]; repeat answer_step.
  - unfold select_questions_by_category. repeat answer_step.
  - apply create_question_answers.
  - unfold search_questions. repeat answer_step.
  - unfold play_quiz. repeat answer_step.
Qed.

(** X10. A body that is not a JSON object is never answered with success
    by the three endpoints that read one: the quiz and the search answer
    400 or 500, the creation 400, 422 or 500; and a body without truth
    value (null, false, 0, the empty string, the empty list, and the empty
    object as well) is answered with BadRequest (400) by all three. *)
Theorem bodies_that_are_not_objects (db : DB) (request_args : args) (body : json)
        (draw : nat) :
  ((forall fields, body <> JObj fields) ->
   answers [400; 500] (play_quiz db draw body) /\
   answers [400; 500] (search_questions esc nul db request_args body) /\
   answers [400; 422; 500] (snd (create_question column_values db body))) /\
  (truthy body = false ->
   respond (play_quiz db draw body) = bad_request /\
   respond (search_questions esc nul db request_args body) = bad_request /\
   respond (snd (create_question column_values db body)) = bad_request).
Proof.
  split.
  - intros Hbody.
    destruct body as [| b | n | s | items | fields];
      [| | | | | now contradiction (Hbody fields)].
    all: split; [unfold play_quiz; repeat answer_step |].
    all: split; [unfold search_questions; repeat answer_step |].
    all: unfold create_question.
    + cbn [truthy negb snd]. repeat answer_step.
    + destruct b; cbn [truthy negb issubset snd]; repeat answer_step.
    + cbn [truthy]. destruct (n =? 0); cbn [negb issubset snd]; repeat answer_step.
    + cbn [truthy]. destruct (String.eqb s ""); cbn [negb snd]; [repeat answer_step |].
      change (issubset required_fields (JStr s)) with (@Ok bool false).
      cbn [snd]. repeat answer_step.
    + destruct (negb (truthy (JArr items))); cbn [snd]; [repeat answer_step |].
      destruct (issubset required_fields (JArr items)) as [[] | e] eqn:E; cbn [snd].
      * unfold create_question_try. cbn [getitem bind snd]. repeat answer_step.
      * repeat answer_step.
      * apply answers_raise; [eauto with raises | simpl; tauto].
  - intros Hfalse. unfold play_quiz, search_questions, create_question.
    rewrite Hfalse. repeat split.
Qed.

End Answers.

(** ** More on the quiz *)

Lemma id_list_app (items : list json) (ids : list Z) (id : Z) :
  id_list items = Some ids ->
  id_list (items ++ [JInt id]) = Some (ids ++ [id])%list.
Proof.
  revert ids. induction items as [| v rest IH]; intros ids.
  - now intros [= <-].
  - destruct v; try discriminate. cbn [app id_list].
    destruct (id_list rest) as [ids' |]; [| discriminate].
    intros [= <-]. now rewrite (IH ids' eq_refl).
Qed.

Lemma candidates_app (db : DB) (c : Z) (ids : list Z) (id : Z) :
  candidates db c (ids ++ [id])
  = filter (fun r => negb (q_id r =? id)) (candidates db c ids).
Proof.
  unfold candidates. induction (questions db) as [| q rest IH]; [reflexivity |].
  cbn [filter]. rewrite existsb_app. cbn [existsb]. rewrite orb_false_r.
  destruct (if c =? 0 then true else String.eqb (q_category q) (str_of_int c));
    cbn [andb]; [| exact IH].
  destruct (existsb (Z.eqb (q_id q)) ids); cbn [orb negb]; [exact IH |].
  cbn [filter]. destruct (q_id q =? id); cbn [negb]; [exact IH | now rewrite IH].
Qed.

Lemma NoDup_ids_filter (f : Question -> bool) (rows : list Question) :
  NoDup (map q_id rows) -> NoDup (map q_id (filter f rows)).
Proof.
  induction rows as [| r rest IH]; intros Hnodup; [constructor |].
  simpl in Hnodup. inversion Hnodup as [| ? ? Hnotin Hrest]; subst.
  cbn [filter]. destruct (f r); [| now apply IH].
  simpl. constructor; [| now apply IH].
  intros Hin. apply Hnotin. apply in_map_iff in Hin as [r' [E Hr']].
  apply filter_In in Hr' as [Hr' _]. rewrite <- E. now apply in_map.
Qed.

Section MoreQuiz.

Variables (db : DB) (fields qc : list (string * json)).
Variables (items : list json) (ids : list Z) (id type : json) (c : Z).
Hypothesis Hprevious : lookup "previous_questions" fields = Some (JArr items).
Hypothesis Hids : id_list items = Some ids.
Hypothesis Hcategory : lookup "quiz_category" fields = Some (JObj qc).
Hypothesis Hid : lookup "id" qc = Some id.
Hypothesis Htype : lookup "type" qc = Some type.
Hypothesis Hint : int id = Ok c.
Hypothesis Hknown : c = 0 \/ In c (map cat_id (categories db)).

(** X11. On a valid body every candidate can be drawn: for each question
    of the table whose id is not in previous_questions and, for a category
    id other than 0, whose category is the decimal string of that id, some
    draw of the random source makes the quiz answer with that question.
    With the id 0 that is every unseen question, of whatever category. *)
Theorem play_quiz_reaches (q : Question) :
  In q (questions db) ->
  ~ In (q_id q) ids ->
  (c <> 0 -> q_category q = str_of_int c) ->
  exists (draw : nat) (message : string),
    play_quiz db draw (JObj fields) =
    Ok (JObj [("success", JBool true);
              ("message", JStr message);
              ("question", format q);
              ("previous_questions", JArr (items ++ [JInt (q_id q)]))]).
Proof.
  intros Hin Hunseen Hcat.
  assert (Hcand : In q (candidates db c ids)) by (apply candidates_spec; tauto).
  apply In_nth_error in Hcand as [i Hi].
  assert (Hlt : (i < List.length (candidates db c ids))%nat)
    by (apply nth_error_Some; congruence).
  exists i. eexists.
  rewrite (play_quiz_valid db i fields (JArr items) qc Hprevious Hcategory
             id type Hid Htype c Hint items ids eq_refl Hids Hknown).
  cbv zeta. rewrite Nat.mod_small by assumption. rewrite Hi. reflexivity.
Qed.

(** X12. A round of the quiz, in a state in which ids are unique: when a
    valid body is answered with a question, the returned previous_questions
    is again a list of integers, the submitted ids followed by the id of
    that question; for a next request with that list the question is no
    longer a candidate and there is exactly one candidate less.  So a quiz
    over n candidates serves n different questions and then none. *)
Theorem play_quiz_round (draw : nat) (response : list (string * json)) (question : json) :
  wf db ->
  play_quiz db draw (JObj fields) = Ok (JObj response) ->
  lookup "question" response = Some question ->
  question <> JNull ->
  exists q : Question,
    question = format q /\
    In q (candidates db c ids) /\
    lookup "previous_questions" response = Some (JArr (items ++ [JInt (q_id q)])) /\
    id_list (items ++ [JInt (q_id q)]) = Some (ids ++ [q_id q])%list /\
    ~ In q (candidates db c (ids ++ [q_id q])) /\
    S (List.length (candidates db c (ids ++ [q_id q])))
    = List.length (candidates db c ids).
Proof.
  intros [Hnodup _].
  rewrite (play_quiz_valid db draw fields (JArr items) qc Hprevious Hcategory
             id type Hid Htype c Hint items ids eq_refl Hids Hknown).
  cbv zeta.
  destruct (nth_error (candidates db c ids) _) as [q |] eqn:Enth.
  - intros [= <-] [= <-] _. apply nth_error_In in Enth.
    exists q. split; [reflexivity |]. split; [assumption |].
    split; [reflexivity |]. split; [now apply id_list_app |].
    rewrite candidates_app. split.
    + intros Hin. apply filter_In in Hin as [_ Hin].
      rewrite Z.eqb_refl in Hin. discriminate.
    + apply length_filter_unique; [| assumption].
      unfold candidates. now apply NoDup_ids_filter.
  - intros [= <-] [= <-] Hnull. now contradiction Hnull.
Qed.

End MoreQuiz.

(** ** More on the search *)

Lemma nul_lower (s : string) : str_mem Sql.nul (lower s) = str_mem Sql.nul s.
Proof.
  induction s as [| c s IH]; [reflexivity |].
  cbn [lower str_mem]. rewrite IH. f_equal.
  destruct c as [[] [] [] [] [] [] [] []]; reflexivity.
Qed.

(** The driver takes or refuses a pattern whatever the case of its
    letters. *)
Lemma accepts_lower (nul : bool) (s t : string) :
  lower s = lower t -> Sql.accepts nul s = Sql.accepts nul t.
Proof.
  intros H. unfold Sql.accepts.
  now rewrite <- (nul_lower s), <- (nul_lower t), H.
Qed.

Section MoreSearch.

Variable esc : bool.
Variable nul : bool.

(** X13. The search does not look at the case of the letters of the search
    term: two terms that differ in the case of ASCII letters only get the
    same answer, whatever the other keys of the two bodies. *)
Theorem search_questions_ignores_case (db : DB) (request_args : args)
        (fields1 fields2 : list (string * json)) (term1 term2 : string) :
  lookup "searchTerm" fields1 = Some (JStr term1) ->
  lookup "searchTerm" fields2 = Some (JStr term2) ->
  lower term1 = lower term2 ->
  search_questions esc nul db request_args (JObj fields1)
  = search_questions esc nul db request_args (JObj fields2).
Proof.
  intros H1 H2 Hlower. rewrite !search_questions_object, H1, H2.
  cbv zeta. cbn [str].
  rewrite (accepts_lower nul ("%" ++ term1 ++ "%") ("%" ++ term2 ++ "%"))
    by (change ("%" ++ term1 ++ "%")%string with (String Sql.percent (term1 ++ "%"));
        change ("%" ++ term2 ++ "%")%string with (String Sql.percent (term2 ++ "%"));
        cbn [lower]; now rewrite !lower_app, Hlower).
  assert (E : forall text,
             Sql.ilike esc text ("%" ++ term1 ++ "%")
             = Sql.ilike esc text ("%" ++ term2 ++ "%")).
  { intros text. unfold Sql.ilike.
    change ("%" ++ term1 ++ "%")%string with (String Sql.percent (term1 ++ "%")).
    change ("%" ++ term2 ++ "%")%string with (String Sql.percent (term2 ++ "%")).
    cbn [lower]. now rewrite !lower_app, Hlower. }
  rewrite (filter_ext _ _ (fun q => E (q_question q))). reflexivity.
Qed.

Lemma ilike_everything (text : string) : Sql.ilike esc text "%%" = true.
Proof.
  unfold Sql.ilike.
  change (lower "%%") with (String Sql.percent (String Sql.percent EmptyString)).
  rewrite like_percent, like_percent_only. reflexivity.
Qed.

(** X14. The empty search term matches every question: the search then
    answers with the page of the whole table and the size of the table as
    total, and on an empty table with a success, an empty list and a
    total of 0. *)
Theorem search_questions_empty_term (db : DB) (request_args : args)
        (fields : list (string * json)) :
  lookup "searchTerm" fields = Some (JStr "") ->
  search_questions esc nul db request_args (JObj fields) =
  Ok (JObj [("success", JBool true);
            ("questions", JArr (paginate format request_args (questions db)));
            ("total_questions", JInt (Z.of_nat (List.length (questions db))));
            ("current_category", JNull)]) /\
  (questions db = [] ->
   search_questions esc nul db request_args (JObj fields) =
   Ok (JObj [("success", JBool true);
             ("questions", JArr []);
             ("total_questions", JInt 0);
             ("current_category", JNull)])).
Proof.
  intros Hterm.
  assert (E : search_questions esc nul db request_args (JObj fields) =
              Ok (JObj [("success", JBool true);
                        ("questions", JArr (paginate format request_args (questions db)));
                        ("total_questions", JInt (Z.of_nat (List.length (questions db))));
                        ("current_category", JNull)])).
  { rewrite search_questions_object, Hterm. cbv zeta. cbn [str].
    change ("%" ++ "" ++ "%")%string with "%%"%string.
    replace (Sql.accepts nul "%%") with true by now destruct nul.
    rewrite (filter_ext _ (fun _ => true) (fun q => ilike_everything (q_question q))).
    rewrite forallb_filter_id; [reflexivity |].
    apply forallb_forall. reflexivity. }
  split; [exact E |].
  intros Hempty. rewrite E, Hempty, paginate_nil. reflexivity.
Qed.

End MoreSearch.

(** ** Integers and their decimal strings *)

Lemma scan_digit (ch : ascii) (rest : string) (acc v : Z) (k : nat) :
  is_digit ch = true -> digit_value ch = v ->
  scan_digits (String ch rest) false acc k
  = scan_digits rest false (10 * acc + v) (S k).
Proof. intros Hd <-. cbn [scan_digits]. now rewrite Hd. Qed.

Lemma scan_digits_uint (d : Decimal.uint) (acc : Z) (k : nat) :
  scan_digits (NilEmpty.string_of_uint d) false acc k
  = Some (uint_value d acc, (k + Decimal.nb_digits d)%nat, EmptyString).
Proof.
  revert acc k. induction d; intros acc k;
    cbn [NilEmpty.string_of_uint uint_value Decimal.nb_digits].
  1: cbn [scan_digits]; now rewrite Nat.add_0_r.
  all: match goal with
       | |- scan_digits (String ?ch _) _ _ _ = _ =>
           rewrite (scan_digit ch _ acc (digit_value ch) k eq_refl eq_refl)
       end.
  all: rewrite IHd, Nat.add_succ_r.
  all: first [reflexivity | change (digit_value "0") with 0; now rewrite Z.add_0_r].
Qed.

Lemma uint_value_pos (d : Decimal.uint) (p : positive) :
  uint_value d (Z.pos p) = Z.pos (Pos.of_uint_acc d p).
Proof.
  revert p. induction d; intros p; cbn [uint_value Pos.of_uint_acc];
    [reflexivity | ..];
    match goal with
    | |- uint_value _ ?x = Z.pos (Pos.of_uint_acc _ ?y) =>
        replace x with (Z.pos y) by lia; apply IHd
    end.
Qed.

Lemma uint_value_of_uint (d : Decimal.uint) : uint_value d 0 = Z.of_uint d.
Proof.
  unfold Z.of_uint. induction d; cbn [uint_value Pos.of_uint];
    [reflexivity | exact IHd | ..];
    cbn [Z.mul Z.add]; now rewrite uint_value_pos.
Qed.

Lemma length_string_of_uint (d : Decimal.uint) :
  String.length (NilEmpty.string_of_uint d) = Decimal.nb_digits d.
Proof. induction d; simpl; congruence. Qed.

Lemma int_of_str_digit (ch : ascii) (rest : string) :
  is_digit ch = true ->
  int_of_str (String ch rest) =
  match scan_digits (String ch rest) false 0 0 with
  | Some (n, digits, rest') =>
      if (digits =? 0)%nat then None
      else if (int_max_str_digits <? digits)%nat then None
      else if all_space rest' then Some n
      else None
  | None => None
  end.
Proof.
  destruct ch as [[] [] [] [] [] [] [] []]; intros H; cbv in H;
    try discriminate H; reflexivity.
Qed.

Lemma parse_uint (d : Decimal.uint) :
  d <> Decimal.Nil ->
  (Decimal.nb_digits d <= int_max_str_digits)%nat ->
  int_of_str (NilEmpty.string_of_uint d) = Some (Z.of_uint d) /\
  parse_unsigned (NilEmpty.string_of_uint d) = Some (Z.of_uint d).
Proof.
  intros Hnil Hdigits.
  assert (Hhead : exists ch rest,
             NilEmpty.string_of_uint d = String ch rest /\ is_digit ch = true).
  { destruct d; [now contradiction Hnil | ..]; eexists _, _; split; reflexivity. }
  destruct Hhead as [ch [rest [Hs Hch]]].
  assert (Hnum : (Decimal.nb_digits d =? 0)%nat = false).
  { apply Nat.eqb_neq. destruct d; [now contradiction Hnil | ..]; discriminate. }
  assert (Hmax : (int_max_str_digits <? Decimal.nb_digits d)%nat = false)
    by (apply Nat.ltb_ge; exact Hdigits).
  assert (E : int_of_str (NilEmpty.string_of_uint d) = Some (Z.of_uint d)).
  { rewrite Hs, (int_of_str_digit ch rest Hch), <- Hs, scan_digits_uint.
    cbn [Nat.add]. rewrite Hnum, Hmax. cbn [all_space].
    now rewrite uint_value_of_uint. }
  split; [exact E |].
  rewrite <- E, Hs. revert Hch. clear.
  destruct ch as [[] [] [] [] [] [] [] []]; intros H; cbv in H;
    try discriminate H; reflexivity.
Qed.

(** The decimal string of an integer is read back as the integer, as long
    as it is within the limit on the digits. *)
Lemma int_of_str_of_int (n : Z) :
  (String.length (str_of_int n) <= int_max_str_digits)%nat ->
  int_of_str (str_of_int n) = Some n.
Proof.
  unfold str_of_int. destruct n as [| p | p]; intros Hlen.
  - reflexivity.
  - cbn [Z.to_int NilZero.string_of_int] in *.
    pose proof (Unsigned.to_uint_nonnil p) as Hnil.
    assert (Es : NilZero.string_of_uint (Pos.to_uint p)
                 = NilEmpty.string_of_uint (Pos.to_uint p))
      by (destruct (Pos.to_uint p); [now contradiction Hnil | reflexivity ..]).
    rewrite Es in *. rewrite length_string_of_uint in Hlen.
    rewrite (proj1 (parse_uint _ Hnil Hlen)).
    unfold Z.of_uint. now rewrite Unsigned.of_to.
  - cbn [Z.to_int NilZero.string_of_int] in *.
    pose proof (Unsigned.to_uint_nonnil p) as Hnil.
    assert (Es : NilZero.string_of_uint (Pos.to_uint p)
                 = NilEmpty.string_of_uint (Pos.to_uint p))
      by (destruct (Pos.to_uint p); [now contradiction Hnil | reflexivity ..]).
    rewrite Es in *. cbn [String.length] in Hlen.
    rewrite length_string_of_uint in Hlen.
    change (int_of_str (String "-" (NilEmpty.string_of_uint (Pos.to_uint p))))
      with (option_map Z.opp (parse_unsigned (NilEmpty.string_of_uint (Pos.to_uint p)))).
    rewrite (proj2 (parse_uint _ Hnil ltac:(lia))).
    unfold Z.of_uint. now rewrite Unsigned.of_to.
Qed.

(** X15. The decimal string of an integer that is within the limit on the
    digits is read back by [int] as that integer.  So the query string
    [?page=] followed by the decimal string of [p] selects page [p], and
    the quiz answers a category id sent as its decimal string as it
    answers the same id sent as a number. *)
Theorem decimal_id_forms (db : DB) (draw : nat) (previous_questions type : json) (n : Z) :
  (String.length (str_of_int n) <= int_max_str_digits)%nat ->
  int (JStr (str_of_int n)) = Ok n /\
  page_of (page_request n) = n /\
  play_quiz db draw
    (JObj [("previous_questions", previous_questions);
           ("quiz_category", JObj [("id", JStr (str_of_int n)); ("type", type)])])
  = play_quiz db draw
      (JObj [("previous_questions", previous_questions);
             ("quiz_category", JObj [("id", JInt n); ("type", type)])]).
Proof.
  intros Hlen. pose proof (int_of_str_of_int n Hlen) as Hround.
  assert (Hint : int (JStr (str_of_int n)) = Ok n)
    by (cbn [int]; now rewrite Hround).
  split; [exact Hint |]. split.
  - unfold page_of, page_request, args_get_int.
    change (args_lookup "page" [("page", str_of_int n)]) with (Some (str_of_int n)).
    cbv beta iota. now rewrite Hround.
  - rewrite (play_quiz_category db draw
               [("previous_questions", previous_questions);
                ("quiz_category", JObj [("id", JStr (str_of_int n)); ("type", type)])]
               previous_questions
               [("id", JStr (str_of_int n)); ("type", type)] eq_refl eq_refl).
    rewrite (play_quiz_category db draw
               [("previous_questions", previous_questions);
                ("quiz_category", JObj [("id", JInt n); ("type", type)])]
               previous_questions
               [("id", JInt n); ("type", type)] eq_refl eq_refl).
    change (contains (JObj [("id", JStr (str_of_int n)); ("type", type)]) "id")
      with (@Ok bool true).
    change (contains (JObj [("id", JInt n); ("type", type)]) "id") with (@Ok bool true).
    change (contains (JObj [("id", JStr (str_of_int n)); ("type", type)]) "type")
      with (@Ok bool true).
    change (contains (JObj [("id", JInt n); ("type", type)]) "type") with (@Ok bool true).
    change (getitem (JObj [("id", JStr (str_of_int n)); ("type", type)]) "id")
      with (Ok (JStr (str_of_int n))).
    change (getitem (JObj [("id", JInt n); ("type", type)]) "id") with (Ok (JInt n)).
    change (getitem (JObj [("id", JStr (str_of_int n)); ("type", type)]) "type")
      with (Ok type).
    change (getitem (JObj [("id", JInt n); ("type", type)]) "type") with (Ok type).
    cbn [bind negb]. rewrite Hint. reflexivity.
Qed.

(** ** The map of the categories *)






(** ** The quiz and the listing of a category *)

(** X17. The quiz of a category and the listing of that category agree on
    which questions belong to it: for the id [c <> 0] of a category, the
    candidates of a quiz are the questions that
    [GET /categories/{c}/questions] counts, less the previous questions, so
    a quiz that starts with no previous question has as many candidates as
    the listing reports in [total_questions]. *)
Theorem quiz_draws_from_listing (db : DB) (request_args : args) (c : Z) :
  c <> 0 ->
  In c (map cat_id (categories db)) ->
  exists selection : list Question,
    select_questions_by_category db request_args c =
    Ok (JObj [("success", JBool true);
              ("questions", JArr (paginate format request_args selection));
              ("current_category", JInt c);
              ("total_questions", JInt (Z.of_nat (List.length selection)))]) /\
    (forall ids : list Z,
        candidates db c ids
        = filter (fun q => negb (existsb (Z.eqb (q_id q)) ids)) selection) /\
    candidates db c [] = selection.
Proof.
  intros Hne Hin.
  exists (filter (fun q => String.eqb (q_category q) (str_of_int c)) (questions db)).
  assert (Hc : (c =? 0) = false) by now apply Z.eqb_neq.
  assert (E : forall ids,
             candidates db c ids
             = filter (fun q => negb (existsb (Z.eqb (q_id q)) ids))
                      (filter (fun q => String.eqb (q_category q) (str_of_int c))
                              (questions db))).
  { intros ids. unfold candidates. rewrite Hc.
    induction (questions db) as [| q rest IH]; [reflexivity |].
    cbn [filter]. destruct (String.eqb (q_category q) (str_of_int c)); cbn [andb filter].
    - destruct (negb (existsb (Z.eqb (q_id q)) ids)); now rewrite IH.
    - exact IH. }
  split; [| split; [exact E |]].
  - unfold select_questions_by_category.
    replace (existsb (Z.eqb c) (map cat_id (categories db))) with true
      by (symmetry; now apply existsb_Zeqb).
    reflexivity.
  - rewrite E. apply forallb_filter_id. apply forallb_forall. reflexivity.
Qed.

(** ** The further properties on the sample data *)

Lemma paginate_unreadable_page_witness :
  paginate format [("page", "two")] Samples.questions
  = firstn 10 (map format Samples.questions) /\
  paginate format [("page", "two")] Samples.questions
  = paginate format [] Samples.questions.
Proof.
  apply (paginate_unreadable_page format [("page", "two")] Samples.questions "two");
    reflexivity.
Defined.

Lemma paginate_pages_cover_witness :
  List.concat (map (fun k => paginate format (page_request (Z.of_nat (S k)))
                                      (Samples.numbered 25))
                   (seq 0 3))
  = map format (Samples.numbered 25).
Proof.
  apply (paginate_pages_cover format (fun k => page_request (Z.of_nat (S k)))
           (Samples.numbered 25) 3).
  - intros [| [| [| k]]] Hk; [reflexivity | reflexivity | reflexivity | lia].
  - vm_compute. lia.
Defined.

Lemma select_questions_by_category_outcomes_witness :
  respond (select_questions_by_category Samples.db [] 0) = not_found /\
  select_questions_by_category Samples.db [] 2 =
  Ok (JObj [("success", JBool true);
            ("questions", JArr []);
            ("current_category", JInt 2);
            ("total_questions", JInt 0)]).
Proof.
  split.
  - apply (select_questions_by_category_outcomes Samples.db [] 0).
    simpl. intuition discriminate.
  - apply (select_questions_by_category_outcomes Samples.db [] 2).
    + simpl. tauto.
    + simpl. intros q [<- | [<- | [<- | [<- | []]]]]; discriminate.
Defined.

Lemma delete_question_outcomes_witness :
  fst (delete_question Samples.db 100) = Samples.db /\
  respond (snd (delete_question Samples.db 100)) = not_found /\
  S (List.length (questions (fst (delete_question Samples.db 2))))
  = List.length (questions Samples.db) /\
  respond (get_question (fst (delete_question Samples.db 2)) 2) = not_found.
Proof.
  destruct (delete_question_outcomes Samples.db 100) as [Hmissing _].
  destruct (delete_question_outcomes Samples.db 2) as [_ Hfound].
  destruct Hmissing as [H1 H2].
  { simpl. intros q [<- | [<- | [<- | [<- | []]]]]; discriminate. }
  destruct Hfound as [_ [H3 [_ [_ [H4 _]]]]].
  { exact samples_wf. }
  { exists (mkQuestion 2 "Where is the HQ of OpenAI?" "San Francisco" "3" 3).
    split; [simpl; tauto | reflexivity]. }
  repeat split; assumption.
Defined.

Lemma create_then_get_witness :
  exists row : Question,
    get (JObj [("success", JBool true); ("created", JInt 5); ("total_questions", JInt 5)])
        "created" = Some (JInt (q_id row)) /\
    questions (fst (create_question Samples.column_values Samples.db Samples.new_question))
    = (questions Samples.db ++ [row])%list /\
    categories (fst (create_question Samples.column_values Samples.db Samples.new_question))
    = categories Samples.db /\
    get_question (fst (create_question Samples.column_values Samples.db Samples.new_question))
                 (q_id row) =
    Ok (JObj [("success", JBool true);
              ("questions", JArr [format row]);
              ("current_category", JStr (q_category row));
              ("total_questions", JInt (Z.of_nat (S (List.length (questions Samples.db)))));
              ("categories", categories_dict (categories Samples.db))]) /\
    (forall q, In q (questions Samples.db) ->
               session_get (fst (create_question Samples.column_values Samples.db
                                                 Samples.new_question)) (q_id q)
               = session_get Samples.db (q_id q)) /\
    wf (fst (create_question Samples.column_values Samples.db Samples.new_question)).
Proof.
  apply (create_then_get Samples.column_values Samples.db
           (fst (create_question Samples.column_values Samples.db Samples.new_question))
           Samples.new_question).
  - exact samples_wf.
  - reflexivity.
Defined.

Lemma failed_write_keeps_state_witness :
  fst (create_question Samples.column_values Samples.db
         (JObj [("question", JStr "Who?"); ("answer", JStr "Me");
                ("category", JInt 2); ("difficulty", JStr "easy")]))
  = Samples.db /\
  fst (delete_question Samples.db 100) = Samples.db.
Proof.
  split.
  - apply (failed_write_keeps_state Samples.column_values Samples.db
             (JObj [("question", JStr "Who?"); ("answer", JStr "Me");
                    ("category", JInt 2); ("difficulty", JStr "easy")]) 100).
    vm_compute. discriminate.
  - apply (failed_write_keeps_state Samples.column_values Samples.db JNull 100).
    vm_compute. discriminate.
Defined.

Lemma listed_question_found_witness :
  exists q : Question,
    In q (questions Samples.db) /\
    format (mkQuestion 3 "What is the capital of France?" "Paris" "3" 1) = format q /\
    get_question Samples.db (q_id q) =
    Ok (JObj [("success", JBool true);
              ("questions",
               JArr [format (mkQuestion 3 "What is the capital of France?" "Paris" "3" 1)]);
              ("current_category", JStr (q_category q));
              ("total_questions", JInt (Z.of_nat (List.length (questions Samples.db))));
              ("categories", categories_dict (categories Samples.db))]).
Proof.
  apply (listed_question_found Samples.db [("page", "1")]).
  - exact samples_wf.
  - simpl. tauto.
Defined.

Lemma bodies_that_are_not_objects_witness :
  answers [400; 500]
    (play_quiz Samples.db 0 (JArr [JStr "previous_questions"; JStr "quiz_category"])) /\
  respond (search_questions true true Samples.db [] (JArr [])) = bad_request.
Proof.
  split.
  - apply (bodies_that_are_not_objects Samples.column_values true true Samples.db []
             (JArr [JStr "previous_questions"; JStr "quiz_category"]) 0).
    discriminate.
  - apply (bodies_that_are_not_objects Samples.column_values true true Samples.db []
             (JArr []) 0).
    reflexivity.
Defined.

Lemma play_quiz_reaches_witness :
  exists (draw : nat) (message : string),
    play_quiz Samples.db draw (Samples.quiz [JInt 1] (JInt 0)) =
    Ok (JObj [("success", JBool true);
              ("message", JStr message);
              ("question",
               format (mkQuestion 4 "Who won the 2025 champions league?" "PSG" "6" 1));
              ("previous_questions", JArr ([JInt 1] ++ [JInt 4]))]).
Proof.
  apply (play_quiz_reaches Samples.db
           [("previous_questions", JArr [JInt 1]);
            ("quiz_category", JObj [("type", JStr "Science"); ("id", JInt 0)])]
           [("type", JStr "Science"); ("id", JInt 0)]
           [JInt 1] [1] (JInt 0) (JStr "Science") 0
           eq_refl eq_refl eq_refl eq_refl eq_refl eq_refl (or_introl eq_refl)
           (mkQuestion 4 "Who won the 2025 champions league?" "PSG" "6" 1)).
  - simpl. tauto.
  - simpl. intuition discriminate.
  - intros H. now contradiction H.
Defined.

Lemma play_quiz_round_witness :
  exists q : Question,
    format (mkQuestion 3 "What is the capital of France?" "Paris" "3" 1) = format q /\
    In q (candidates Samples.db 3 [2]) /\
    lookup "previous_questions"
      [("success", JBool true);
       ("message", JStr "New random question successfully retrieved from category Science");
       ("question", format (mkQuestion 3 "What is the capital of France?" "Paris" "3" 1));
       ("previous_questions", JArr [JInt 2; JInt 3])]
    = Some (JArr ([JInt 2] ++ [JInt (q_id q)])) /\
    id_list ([JInt 2] ++ [JInt (q_id q)]) = Some ([2] ++ [q_id q])%list /\
    ~ In q (candidates Samples.db 3 ([2] ++ [q_id q])) /\
    S (List.length (candidates Samples.db 3 ([2] ++ [q_id q])))
    = List.length (candidates Samples.db 3 [2]).
Proof.
  apply (play_quiz_round Samples.db
           [("previous_questions", JArr [JInt 2]);
            ("quiz_category", JObj [("type", JStr "Science"); ("id", JStr "3")])]
           [("type", JStr "Science"); ("id", JStr "3")]
           [JInt 2] [2] (JStr "3") (JStr "Science") 3
           eq_refl eq_refl eq_refl eq_refl eq_refl eq_refl
           (or_intror (or_intror (or_intror (or_introl eq_refl)))) 7).
  - exact samples_wf.
  - reflexivity.
  - reflexivity.
  - discriminate.
Defined.

Lemma search_questions_ignores_case_witness :
  search_questions true true Samples.db [] (JObj [("searchTerm", JStr "PYTHON")])
  = search_questions true true Samples.db [] (JObj [("searchTerm", JStr "python")]).
Proof.
  apply (search_questions_ignores_case true true Samples.db []
           [("searchTerm", JStr "PYTHON")] [("searchTerm", JStr "python")]
           "PYTHON" "python");
    reflexivity.
Defined.

Lemma search_questions_empty_term_witness :
  search_questions true true Samples.db [] (JObj [("searchTerm", JStr "")]) =
  Ok (JObj [("success", JBool true);
            ("questions", JArr (paginate format [] (questions Samples.db)));
            ("total_questions", JInt (Z.of_nat (List.length (questions Samples.db))));
            ("current_category", JNull)]) /\
  search_questions true true (empty Samples.categories) [] (JObj [("searchTerm", JStr "")]) =
  Ok (JObj [("success", JBool true);
            ("questions", JArr []);
            ("total_questions", JInt 0);
            ("current_category", JNull)]).
Proof.
  split.
  - apply (search_questions_empty_term true true Samples.db [] [("searchTerm", JStr "")]).
    reflexivity.
  - apply (search_questions_empty_term true true (empty Samples.categories) []
             [("searchTerm", JStr "")]);
      reflexivity.
Defined.

Lemma decimal_id_forms_witness :
  int (JStr (str_of_int 3)) = Ok 3 /\
  page_of (page_request 3) = 3 /\
  play_quiz Samples.db 0
    (JObj [("previous_questions", JArr []);
           ("quiz_category", JObj [("id", JStr (str_of_int 3)); ("type", JStr "Geography")])])
  = play_quiz Samples.db 0
      (JObj [("previous_questions", JArr []);
             ("quiz_category", JObj [("id", JInt 3); ("type", JStr "Geography")])]).
Proof.
  apply (decimal_id_forms Samples.db 0 (JArr []) (JStr "Geography") 3).
  change (1 <= int_max_str_digits)%nat. unfold int_max_str_digits. lia.
Defined.


Lemma quiz_draws_from_listing_witness :
  exists selection : list Question,
    select_questions_by_category Samples.db [] 3 =
    Ok (JObj [("success", JBool true);
              ("questions", JArr (paginate format [] selection));
              ("current_category", JInt 3);
              ("total_questions", JInt (Z.of_nat (List.length selection)))]) /\
    (forall ids : list Z,
        candidates Samples.db 3 ids
        = filter (fun q => negb (existsb (Z.eqb (q_id q)) ids)) selection) /\
    candidates Samples.db 3 [] = selection.
Proof.
  apply (quiz_draws_from_listing Samples.db [] 3).
  - discriminate.
  - simpl. tauto.
Defined.
